(** * NovaDoc: the upload front end and the document core it drives

    A shallow embedding of [frontend.py] and [reprocess_docs.py].

    - Part 1 models the pieces of the Python runtime the front end leans on:
      [str] as a sequence of Unicode code points, [str.strip], [str.join],
      [str(int)], the UTF-8 codec and [pathlib]'s [name]/[suffix]/[stem].
    - Part 2 models the world the front end runs in: a small file system,
      the Streamlit message log, the third-party readers ([docx], [PyPDF2],
      [pandas]) and the [DocumentProcessor] object, whose module is not
      part of the sources and is therefore an interface.
    - Part 3 is the front end itself, function by function.
    - Part 4 models the core ([DocumentProcessor], [QueryEngine]) from its
      written contract, the reprocessing script on top of it, and the two
      front-end handlers that talk to the query engine.
    - Part 5 holds the observations on traces and a small concrete
      installation used in the examples.
    - Part 6 states and proves the properties.
    - Part 7 follows the upload path further: when an upload goes through,
      when it is turned away, what it leaves on disk.
    - Part 8 is about the page: "Process All Files", the document manager,
      the statistics and the chat. *)

From Stdlib Require Import NArith ZArith List String Ascii Lia Bool.
From Stdlib.Strings Require Import Byte.
From Stdlib Require Import DecimalString.
From stdpp Require Import gmap list.

Local Open Scope N_scope.

(* ===================================================================== *)
(** * Part 1. Python runtime                                              *)
(* ===================================================================== *)

Module Py.

(** A Python [str] is a sequence of code points. *)
Abbreviation pystr := (list N).

(** ASCII literals of the source text. *)
Definition py (s : string) : pystr :=
  map N_of_ascii (list_ascii_of_string s).

Definition str_eqb (a b : pystr) : bool := bool_decide (a = b).

(** [str.isspace] on one code point: the code points CPython's
    [_PyUnicode_IsWhitespace] accepts. *)
Definition is_space (c : N) : bool :=
  ((9 <=? c) && (c <=? 13)) || ((28 <=? c) && (c <=? 32))
  || (c =? 133) || (c =? 160) || (c =? 5760)
  || ((8192 <=? c) && (c <=? 8202))
  || (c =? 8232) || (c =? 8233) || (c =? 8239) || (c =? 8287)
  || (c =? 12288).

Fixpoint lstrip (s : pystr) : pystr :=
  match s with
  | [] => []
  | c :: r => if is_space c then lstrip r else s
  end.

Definition rstrip (s : pystr) : pystr := rev (lstrip (rev s)).

(** [s.strip()] with no argument. *)
Definition strip (s : pystr) : pystr := rstrip (lstrip s).

(** The text is made of white space only (the empty text included). *)
Definition blank (s : pystr) : bool := forallb is_space s.

(** [sep.join(parts)]. *)
Fixpoint join (sep : pystr) (parts : list pystr) : pystr :=
  match parts with
  | [] => []
  | [p] => p
  | p :: rest => p ++ sep ++ join sep rest
  end.

(** [str(n)] for a non-negative integer. *)
Definition str_of_nat (n : nat) : pystr :=
  py (NilZero.string_of_uint (Nat.to_uint n)).

(** [str(z)] for any integer. *)
Definition str_of_int (z : Z) : pystr :=
  if (z <? 0)%Z then 45 :: str_of_nat (Z.abs_nat z) else str_of_nat (Z.abs_nat z).

(** [s.rfind(c)]: the last index of [c], or -1. *)
Fixpoint rfind_opt (c : N) (s : pystr) : option nat :=
  match s with
  | [] => None
  | x :: r =>
      match rfind_opt c r with
      | Some i => Some (S i)
      | None => if x =? c then Some O else None
      end
  end.

Definition rfind (c : N) (s : pystr) : Z :=
  match rfind_opt c s with
  | Some i => Z.of_nat i
  | None => (-1)%Z
  end.

(** [s.split(sep)] for a one-character separator. *)
Fixpoint split_on (sep : N) (s : pystr) : list pystr :=
  match s with
  | [] => [[]]
  | c :: r =>
      if c =? sep then [] :: split_on sep r
      else match split_on sep r with
           | [] => [[c]]
           | p :: ps => (c :: p) :: ps
           end
  end.

(** [str.lower] on the ASCII range. *)
Definition ascii_lower (c : N) : N :=
  if (65 <=? c) && (c <=? 90) then c + 32 else c.

(** ** The UTF-8 codec (strict), as [str(data, "utf-8")] applies it. *)

Definition is_cont (b : N) : bool := (128 <=? b) && (b <=? 191).

Definition is_surrogate (c : N) : bool := (55296 <=? c) && (c <=? 57343).

Fixpoint utf8_decode (bs : list N) : option pystr :=
  match bs with
  | [] => Some []
  | b0 :: r =>
      if b0 <? 128 then cons b0 <$> utf8_decode r
      else if (194 <=? b0) && (b0 <=? 223) then
        match r with
        | b1 :: r1 =>
            if is_cont b1
            then cons ((b0 - 192) * 64 + (b1 - 128)) <$> utf8_decode r1
            else None
        | _ => None
        end
      else if (224 <=? b0) && (b0 <=? 239) then
        match r with
        | b1 :: b2 :: r2 =>
            let c := (b0 - 224) * 4096 + (b1 - 128) * 64 + (b2 - 128) in
            if is_cont b1 && is_cont b2 && (2048 <=? c) && negb (is_surrogate c)
            then cons c <$> utf8_decode r2
            else None
        | _ => None
        end
      else if (240 <=? b0) && (b0 <=? 244) then
        match r with
        | b1 :: b2 :: b3 :: r3 =>
            let c := (b0 - 240) * 262144 + (b1 - 128) * 4096
                     + (b2 - 128) * 64 + (b3 - 128) in
            if is_cont b1 && is_cont b2 && is_cont b3
               && (65536 <=? c) && (c <=? 1114111)
            then cons c <$> utf8_decode r3
            else None
        | _ => None
        end
      else None
  end.

(** A text can be written through a UTF-8 text stream unless it holds a
    lone surrogate. *)
Definition utf8_encodable (s : pystr) : bool :=
  forallb (fun c => negb (is_surrogate c)) s.

(** ** pathlib (POSIX flavour, the [name]/[suffix]/[stem] of CPython
       3.8 to 3.13) *)

Definition slash : N := 47.
Definition dot : N := 46.

(** A path component survives parsing when it is neither empty nor ["."]. *)
Definition kept_part (p : pystr) : bool :=
  negb (str_eqb p []) && negb (str_eqb p [dot]).

(** [Path(s).name]: the final component, [''] when there is none. *)
Definition path_name (s : pystr) : pystr :=
  default [] (last (List.filter kept_part (split_on slash s))).

(** [Path(s).suffix]:
<<
    name = self.name
    i = name.rfind('.')
    if 0 < i < len(name) - 1: return name[i:]
    else: return ''
>> *)
Definition path_suffix (s : pystr) : pystr :=
  let name := path_name s in
  let i := rfind dot name in
  if ((0 <? i) && (i <? Z.of_nat (length name) - 1))%Z
  then drop (Z.to_nat i) name
  else [].

(** [Path(s).stem]: the same test, the other half of the name. *)
Definition path_stem (s : pystr) : pystr :=
  let name := path_name s in
  let i := rfind dot name in
  if ((0 <? i) && (i <? Z.of_nat (length name) - 1))%Z
  then take (Z.to_nat i) name
  else name.

End Py.

Import Py.

(* ===================================================================== *)
(** * Part 2. The world the front end runs in                             *)
(* ===================================================================== *)

(** Failure conditions of the core, as its contract names them (they are
    declared here because a Python exception may carry one). *)
Inductive core_error : Type :=
  | InvalidArgument
  | InvalidConfiguration
  | EmbeddingUnavailable
  | ModelTimeout
  | ModelUnavailable.

Inductive result (A : Type) : Type :=
  | Ok (a : A)
  | Err (e : core_error).
Arguments Ok {A} a.
Arguments Err {A} e.

(** Exceptions deriving from Python's [Exception]; only those reach an
    [except Exception] clause. *)
Inductive exn : Type :=
  | UnicodeDecodeError
  | UnicodeEncodeError
  | FileExistsError
  | FileNotFoundError
  | IsADirectoryError
  | NotADirectoryError
  | OSError (errno : N)
  | KeyError (key : pystr)
  | CoreError (e : core_error)
  | LibraryError (message : pystr).

Inductive outcome (A : Type) : Type :=
  | Ret (a : A)
  | Raise (e : exn).
Arguments Ret {A} a.
Arguments Raise {A} e.

(** ** pandas, as far as the CSV extractor looks at it *)

Inductive dtype : Type := Int64 | Float64 | BoolT | ObjectT.

(** [select_dtypes(include=['number'])] keeps integer and floating columns;
    booleans and objects are not numbers. *)
Definition is_number (d : dtype) : bool :=
  match d with
  | Int64 | Float64 => true
  | BoolT | ObjectT => false
  end.

(** A column: its label, its dtype and its cells (each cell kept as the
    field the parser read). *)
Record Column : Type := mkColumn {
  label : pystr;
  col_dtype : dtype;
  cells : list pystr
}.

Record DataFrame : Type := mkDataFrame {
  columns : list Column;
  nrows : nat                       (* [len(df)] *)
}.

(** [df.head(n)] *)
Definition head (n : nat) (df : DataFrame) : DataFrame :=
  {| columns := map (fun c => {| label := label c; col_dtype := col_dtype c;
                                 cells := take n (cells c) |}) (columns df);
     nrows := Nat.min n (nrows df) |}.

(** [df.select_dtypes(include=['number']).columns] *)
Definition numeric_columns (df : DataFrame) : list pystr :=
  map label (List.filter (fun c => is_number (col_dtype c)) (columns df)).

(** [df[labels]]: for each requested label, the columns carrying it. *)
Definition getitem (labels : list pystr) (df : DataFrame) : DataFrame :=
  {| columns := flat_map (fun l => List.filter (fun c => str_eqb (label c) l)
                                               (columns df)) labels;
     nrows := nrows df |}.

(** ** The file system *)

Record FS : Type := mkFS {
  dirs : gset pystr;
  files : gmap pystr pystr          (* text files, by path as written *)
}.

Inductive syscall : Type := SysMakedirs | SysOpen | SysWrite.

(** ** What was not written in this repository's front end

    The third-party readers, the operating system's own failures, the part
    of [str.lower] outside ASCII, and the [DocumentProcessor] object (its
    state and its [process_text_file] method). *)
Record Env : Type := mkEnv {
  lower_nonascii : N -> pystr;
  docx_Document : list byte -> outcome (list pystr);
  pdf_PdfReader : list byte -> outcome (list (outcome pystr));
  pd_read_csv : list byte -> outcome DataFrame;
  df_to_string : bool -> DataFrame -> pystr;
  df_describe : DataFrame -> DataFrame;
  os_fault : syscall -> FS -> option exn;
  proc_state : Type;
  process_text_file :
    proc_state -> FS -> pystr -> pystr -> outcome bool * proc_state
}.

(** The methods of [DocumentProcessor] a caller can invoke, with their
    arguments. *)
Inductive ProcessorCall : Type :=
  | CallProcessDocument (text document_id : pystr)
  | CallProcessTextFile (file_path document_id : pystr)
  | CallAddSampleDocuments
  | CallClearAllDocuments
  | CallGetVectorStoreStats.

(** Everything observable the front end does, in order. *)
Inductive Event : Type :=
  | OsMakedirs (path : pystr)
  | UploadRead (name : pystr)
  | DocxDocument (name : pystr)
  | PdfReader (name : pystr)
  | PdReadCsv (name : pystr)
  | OpenW (path : pystr)
  | FileWrite (path text : pystr)
  | StError (text : pystr) (cause : option exn)
  | StSuccess (text : pystr)
  | StInfo (text : pystr)
  | StMetric (label : pystr) (value : Z)
  | Call (c : ProcessorCall).

(** A Streamlit [UploadedFile]. *)
Record UploadedFile : Type := mkUpload {
  name : pystr;
  content : list byte
}.

Section FrontEnd.

Context (env : Env).

Record World : Type := mkWorld {
  fs : FS;
  proc : proc_state env;
  trace : list Event
}.

(** State and exceptions. *)
Definition M (A : Type) : Type := World -> outcome A * World.

Definition ret {A} (a : A) : M A := fun w => (Ret a, w).

Definition raise {A} (e : exn) : M A := fun w => (Raise e, w).

Definition bind {A B} (m : M A) (k : A -> M B) : M B :=
  fun w =>
    match m w with
    | (Ret a, w') => k a w'
    | (Raise e, w') => (Raise e, w')
    end.

(** [try: body  except Exception as e: handler(e)] *)
Definition try_except {A} (body : M A) (handler : exn -> M A) : M A :=
  fun w =>
    match body w with
    | (Ret a, w') => (Ret a, w')
    | (Raise e, w') => handler e w'
    end.

Definition lift {A} (o : outcome A) : M A := fun w => (o, w).

Definition emit (ev : Event) : M unit :=
  fun w => (Ret tt, {| fs := fs w; proc := proc w; trace := trace w ++ [ev] |}).

Definition set_fs (f : FS) : M unit :=
  fun w => (Ret tt, {| fs := f; proc := proc w; trace := trace w |}).

Definition get_fs : M FS := fun w => (Ret (fs w), w).

End FrontEnd.

Arguments ret {env A} a.
Arguments raise {env A} e.
Arguments bind {env A B} m k.
Arguments try_except {env A} body handler.
Arguments lift {env A} o.
Arguments emit {env} ev.
Arguments set_fs {env} f.
Arguments get_fs {env}.
Arguments fs {env} w.
Arguments proc {env} w.
Arguments trace {env} w.
Arguments mkWorld {env} fs proc trace.

Notation "'let*' x ':=' m 'in' k" := (bind m (fun x => k))
  (at level 10, x name, m at level 100, k at level 200).
Notation "m '>>' k" := (bind m (fun _ => k))
  (at level 90, right associativity).

(* ===================================================================== *)
(** * Part 3. frontend.py                                                 *)
(* ===================================================================== *)

Section FrontEndCode.

Context (env : Env).

Local Abbreviation M := (M env).

Definition nl : pystr := [10].

(** [s.lower()]: ASCII letters are folded here, the other code points by
    the runtime's table.  (The one rule of [str.lower] that looks at the
    neighbours of a character, the Greek final sigma, turns a non-ASCII
    character into a non-ASCII character, so it cannot change whether the
    result is one of the four ASCII extensions compared below.) *)
Definition lower (s : pystr) : pystr :=
  flat_map (fun c => if c <? 128 then [ascii_lower c] else lower_nonascii env c) s.

(** ** Operating system *)

(** [os.makedirs(path, exist_ok=True)] *)
Definition os_makedirs (path : pystr) : M unit :=
  emit (OsMakedirs path) >>
  let* f := get_fs in
  match os_fault env SysMakedirs f with
  | Some e => raise e
  | None =>
      if bool_decide (path ∈ dom (files f)) then raise FileExistsError
      else set_fs {| dirs := {[path]} ∪ dirs f; files := files f |}
  end.

(** The directory a path lives in; [None] is the working directory. *)
Definition parent (path : pystr) : option pystr :=
  match rfind_opt slash path with
  | Some i => Some (take i path)
  | None => None
  end.

(** [open(path, 'w', encoding='utf-8')]: the file is created or emptied. *)
Definition open_w (path : pystr) : M unit :=
  emit (OpenW path) >>
  let* f := get_fs in
  match os_fault env SysOpen f with
  | Some e => raise e
  | None =>
      if bool_decide (path ∈ dirs f) then raise IsADirectoryError
      else if match parent path with
              | Some d => bool_decide (d ∈ dirs f)
              | None => true
              end
      then set_fs {| dirs := dirs f; files := <[path := []]> (files f) |}
      else raise FileNotFoundError
  end.

(** [f.write(text)] on the stream just opened, and the close that ends the
    [with] block. *)
Definition file_write (path text : pystr) : M unit :=
  let* f := get_fs in
  match os_fault env SysWrite f with
  | Some e => raise e
  | None =>
      if utf8_encodable text
      then emit (FileWrite path text) >>
           set_fs {| dirs := dirs f; files := <[path := text]> (files f) |}
      else raise UnicodeEncodeError
  end.

(** ** Streamlit *)

Definition st_error (text : pystr) (cause : option exn) : M unit :=
  emit (StError text cause).
Definition st_success (text : pystr) : M unit := emit (StSuccess text).
Definition st_info (text : pystr) : M unit := emit (StInfo text).

(** ** The extractors *)

(** [str(uploaded_file.read(), "utf-8")] *)
Definition read_utf8 (file : UploadedFile) : M pystr :=
  emit (UploadRead (name file)) >>
  match utf8_decode (map Byte.to_N (content file)) with
  | Some text => ret text
  | None => raise UnicodeDecodeError
  end.

(** [for paragraph in doc.paragraphs: text += paragraph.text + "\n"] *)
Fixpoint docx_loop (paragraphs : list pystr) (text : pystr) : pystr :=
  match paragraphs with
  | [] => text
  | p :: rest => docx_loop rest (text ++ p ++ nl)
  end.

Definition extract_text_from_docx (file : UploadedFile) : M (option pystr) :=
  try_except
    (emit (DocxDocument (name file)) >>
     let* paragraphs := lift (docx_Document env (content file)) in
     ret (Some (docx_loop paragraphs [])))
    (fun e => st_error (py "Error reading DOCX file: ") (Some e) >> ret None).

(** [for page in pdf_reader.pages: text += page.extract_text() + "\n"] *)
Fixpoint pdf_loop (pages : list (outcome pystr)) (text : pystr) : M pystr :=
  match pages with
  | [] => ret text
  | page :: rest =>
      let* t := lift page in
      pdf_loop rest (text ++ t ++ nl)
  end.

Definition extract_text_from_pdf (file : UploadedFile) : M (option pystr) :=
  try_except
    (emit (PdfReader (name file)) >>
     let* pages := lift (pdf_PdfReader env (content file)) in
     let* text := pdf_loop pages [] in
     ret (Some text))
    (fun e => st_error (py "Error reading PDF file: ") (Some e) >> ret None).

(** The text built from a parsed frame, lines 69 to 81. *)
Definition csv_header (file_name : pystr) (df : DataFrame) : pystr :=
  (py "CSV Data from " ++ file_name ++ py ":" ++ nl ++ nl)
  ++ (py "Columns: " ++ join (py ", ") (map label (columns df)) ++ nl ++ nl)
  ++ (py "Total rows: " ++ str_of_nat (nrows df) ++ nl ++ nl)
  ++ (py "Sample data:" ++ nl)
  ++ df_to_string env false (head 10 df).

Definition csv_summary (df : DataFrame) : pystr :=
  let numeric_cols := numeric_columns df in
  if (0 <? length numeric_cols)%nat
  then (nl ++ nl ++ py "Summary Statistics:" ++ nl)
       ++ df_to_string env true (df_describe env (getitem numeric_cols df))
  else [].

Definition csv_text (file_name : pystr) (df : DataFrame) : pystr :=
  csv_header file_name df ++ csv_summary df.

Definition extract_text_from_csv (file : UploadedFile) : M (option pystr) :=
  try_except
    (emit (PdReadCsv (name file)) >>
     let* df := lift (pd_read_csv env (content file)) in
     ret (Some (csv_text (name file) df)))
    (fun e => st_error (py "Error reading CSV file: ") (Some e) >> ret None).

(** ** process_uploaded_file *)

(** [doc_processor.process_text_file(file_path, document_id)] *)
Definition call_process_text_file (file_path document_id : pystr) : M bool :=
  emit (Call (CallProcessTextFile file_path document_id)) >>
  fun w =>
    let '(r, p) := process_text_file env (proc w) (fs w) file_path document_id in
    (r, {| fs := fs w; proc := p; trace := trace w |}).

(** [f"uploads/{uploaded_file.name}_processed.txt"] *)
Definition processed_path (file_name : pystr) : pystr :=
  py "uploads/" ++ file_name ++ py "_processed.txt".

(** [not text_content or len(text_content.strip()) == 0] *)
Definition no_text (text_content : option pystr) : bool :=
  match text_content with
  | None => true
  | Some text => str_eqb text [] || (length (strip text) =? 0)%nat
  end.

(** Lines 120 to 139: what follows the extraction. *)
Definition after_extraction (uploaded_file : UploadedFile)
    (text_content : option pystr) : M bool :=
  if no_text text_content
  then st_error (py "Could not extract text from the file or file is empty") None
       >> ret false
  else
    let text := default [] text_content in
    (* Save the extracted content as a text file *)
    let file_path := processed_path (name uploaded_file) in
    open_w file_path >>
    file_write file_path text >>
    (* Process the file *)
    let document_id := path_stem (name uploaded_file) in
    let* success := call_process_text_file file_path document_id in
    if success
    then st_success ([9989; 32] ++ py "Successfully processed '"
                     ++ name uploaded_file ++ py "'!") >>
         st_info ([128196; 32] ++ py "Extracted "
                  ++ str_of_nat (length text) ++ py " characters of text") >>
         ret true
    else st_error (py "Failed to process the document") None >> ret false.

(** Lines 100 to 118: the extractor the extension selects; [None] is the
    [else] branch, which returns at once. *)
Definition extract_by_type (file_extension : pystr) (uploaded_file : UploadedFile)
  : option (M (option pystr)) :=
  if str_eqb file_extension (py ".txt") then
    Some (let* text := read_utf8 uploaded_file in ret (Some text))
  else if str_eqb file_extension (py ".docx") then
    Some (extract_text_from_docx uploaded_file)
  else if str_eqb file_extension (py ".pdf") then
    Some (extract_text_from_pdf uploaded_file)
  else if str_eqb file_extension (py ".csv") then
    Some (extract_text_from_csv uploaded_file)
  else None.

Definition process_uploaded_file_body (uploaded_file : UploadedFile) : M bool :=
  os_makedirs (py "uploads") >>
  let file_extension := lower (path_suffix (name uploaded_file)) in
  match extract_by_type file_extension uploaded_file with
  | Some extract =>
      let* text_content := extract in
      after_extraction uploaded_file text_content
  | None =>
      st_error (py "Unsupported file type: " ++ file_extension) None >> ret false
  end.

Definition process_uploaded_file (uploaded_file : UploadedFile) : M bool :=
  try_except
    (process_uploaded_file_body uploaded_file)
    (fun e => st_error (py "Error processing file: ") (Some e) >> ret false).

End FrontEndCode.

Arguments st_error {env} text cause.
Arguments st_success {env} text.
Arguments st_info {env} text.

(* ===================================================================== *)
(** * Part 4. The core, from its written contract                         *)
(* ===================================================================== *)

(** The modules [document_processor] and [query_engine] are imported by the
    front end and by the script but are not among the sources.  What
    follows is their contract as the specification words it. *)

(** Modelled from the spec: the external models and the configuration the
    core is built on (chunker, embedder, similarity metric, generative
    model, template composer, built-in samples, constants), none of which
    is in the sources. *)
Record Models : Type := mkModels {
  vector : Type;
  score : Type;
  chunk : pystr -> nat -> nat -> list pystr;
  chunk_size : nat;
  overlap : nat;
  embed : pystr -> result vector;
  similarity : vector -> vector -> score;
  score_ltb : score -> score -> bool;
  min_relevance : score;
  top_k : Z;
  max_context : nat;
  generate : pystr -> list pystr -> result pystr;
  compose_template : pystr -> list pystr -> pystr;
  sample_documents : list (pystr * pystr)       (* (id, text) *)
}.

(** A Python [dict] with string keys and integer values. *)
Abbreviation dict := (gmap pystr Z).

(** [d[key]] *)
Definition dict_get (d : dict) (key : pystr) : outcome Z :=
  match d !! key with
  | Some v => Ret v
  | None => Raise (KeyError key)
  end.

Section Core.

Context (mdl : Models).

(** Modelled from the spec: the Chunk of section 3. *)
Record Chunk : Type := mkChunk {
  document_id : pystr;
  chunk_index : nat;
  text : pystr;
  vec : vector mdl
}.

(** Modelled from the spec: the VectorStore of section 3; the entries are
    kept in insertion order, which is the order of the internal keys. *)
Record VectorStore : Type := mkStore {
  entries : list Chunk;
  dim : nat
}.

(** Modelled from the spec: [insert] appends (section 4.3). *)
Definition vs_insert (chunks : list Chunk) (s : VectorStore) : VectorStore :=
  {| entries := entries s ++ chunks; dim := dim s |}.

(** Modelled from the spec: [delete_by_document] removes every chunk of the
    id and reports how many went (section 4.3). *)
Definition delete_by_document (id : pystr) (s : VectorStore)
  : nat * VectorStore :=
  let kept := List.filter (fun c => negb (str_eqb (document_id c) id)) (entries s) in
  ((length (entries s) - length kept)%nat, {| entries := kept; dim := dim s |}).

(** Modelled from the spec: [clear] empties the store (section 4.3). *)
Definition clear (s : VectorStore) : VectorStore :=
  {| entries := []; dim := dim s |}.

(** Modelled from the spec: the stats snapshot
    [{total_documents: int = total chunk count, dimension: int}]. *)
Definition stats (s : VectorStore) : dict :=
  <[py "total_documents" := Z.of_nat (length (entries s))]>
  (<[py "dimension" := Z.of_nat (dim s)]> ∅).

(** Modelled from the spec: ranking by descending similarity, ties to the
    earlier entry (section 4.3). *)
Fixpoint rank_insert (x : Chunk * score mdl) (l : list (Chunk * score mdl))
  : list (Chunk * score mdl) :=
  match l with
  | [] => [x]
  | y :: t => if score_ltb mdl (snd x) (snd y) then y :: rank_insert x t
              else x :: l
  end.

Definition rank (l : list (Chunk * score mdl)) : list (Chunk * score mdl) :=
  fold_right rank_insert [] l.

(** Modelled from the spec: [search(query_vector, k)] (section 4.3). *)
Definition search (q : vector mdl) (k : Z) (s : VectorStore)
  : result (list (Chunk * score mdl)) :=
  if (k <=? 0)%Z then Err InvalidArgument
  else Ok (take (Z.to_nat k)
             (rank (map (fun c => (c, similarity mdl q (vec c))) (entries s)))).

(** ** Indexer *)

Fixpoint embed_all (passages : list pystr) : result (list (pystr * vector mdl)) :=
  match passages with
  | [] => Ok []
  | p :: rest =>
      match embed mdl p, embed_all rest with
      | Ok v, Ok vs => Ok ((p, v) :: vs)
      | Err e, _ => Err e
      | _, Err e => Err e
      end
  end.

Definition make_chunks (id : pystr) (pvs : list (pystr * vector mdl)) : list Chunk :=
  imap (fun i pv => {| document_id := id; chunk_index := i;
                       text := fst pv; vec := snd pv |}) pvs.

(** Modelled from the spec: [process_document(text, document_id)]
    (section 4.4): blank text and failing configuration or embedding give a
    failure result and leave the store as it was; otherwise the old chunks
    of the id are replaced by the new ones. *)
Definition process_document (txt id : pystr) (s : VectorStore)
  : bool * VectorStore :=
  if blank txt then (false, s)
  else if (chunk_size mdl <=? overlap mdl)%nat then (false, s)
  else match embed_all (chunk mdl txt (chunk_size mdl) (overlap mdl)) with
       | Err _ => (false, s)
       | Ok pvs => (true, vs_insert (make_chunks id pvs)
                                    (snd (delete_by_document id s)))
       end.

(** Modelled from the spec: [add_sample_documents()] ingests the built-in
    examples one after the other (section 4.4). *)
Definition add_sample_documents (s : VectorStore) : VectorStore :=
  fold_left (fun st d => snd (process_document (snd d) (fst d) st))
            (sample_documents mdl) s.

(** Modelled from the spec: [clear_all_documents()] delegates to the
    store's [clear] (section 4.4). *)
Definition clear_all_documents (s : VectorStore) : VectorStore := clear s.

(** Modelled from the spec: [get_vector_store_stats()] (section 4.4). *)
Definition get_vector_store_stats (s : VectorStore) : dict := stats s.

End Core.

Arguments document_id {mdl} _.
Arguments chunk_index {mdl} _.
Arguments text {mdl} _.
Arguments vec {mdl} _.
Arguments entries {mdl} _.
Arguments dim {mdl} _.
Arguments mkStore {mdl} entries dim.
Arguments mkChunk {mdl} document_id chunk_index text vec.
Arguments clear {mdl} s.
Arguments stats {mdl} s.
Arguments vs_insert {mdl} chunks s.
Arguments delete_by_document {mdl} id s.
Arguments clear_all_documents {mdl} s.
Arguments get_vector_store_stats {mdl} s.

(** ** QueryEngine *)

Inductive mode : Type := Template | Advanced.

(** The success/degraded indicator that accompanies an answer. *)
Inductive status : Type :=
  | Answered (ran : mode)
  | Fallback (cause : core_error)            (* advanced asked, template ran *)
  | Degraded (cause : option core_error).    (* a fixed answer was returned *)

Record Answer : Type := mkAnswer {
  answer_text : pystr;
  answer_status : status
}.

(** Modelled from the spec: the three fixed answers of section 4.5.  The
    specification fixes their role, not their wording. *)
Definition invalid_question_answer : pystr := py "Please enter a question.".
Definition unable_answer : pystr := py "Unable to process question.".
Definition no_information_answer : pystr := py "No relevant information found.".

Section QueryEngine.

Context (mdl : Models).

(** Modelled from the spec: no passage, or every score under the minimum
    relevance (section 4.5, step 4). *)
Definition no_relevant (hits : list (Chunk mdl * score mdl)) : bool :=
  forallb (fun h => score_ltb mdl (snd h) (min_relevance mdl)) hits.

(** Modelled from the spec: the context handed to the generative model keeps
    whole passages, dropping the lowest ranked until it fits (step 5). *)
Fixpoint fit_context (budget : nat) (passages : list pystr) : list pystr :=
  match passages with
  | [] => []
  | p :: rest =>
      if (length p <=? budget)%nat
      then p :: fit_context (budget - length p) rest
      else []
  end.

(** Modelled from the spec: [ask_question(question, use_advanced)], steps 1
    to 5 of section 4.5, each internal failure answered where the
    specification says it is. *)
Definition ask_question (question : pystr) (use_advanced : bool)
    (s : VectorStore mdl) : result Answer :=
  if blank question
  then Ok {| answer_text := invalid_question_answer;
             answer_status := Degraded (Some InvalidArgument) |}
  else
    match embed mdl question with
    | Err e => Ok {| answer_text := unable_answer;
                     answer_status := Degraded (Some e) |}
    | Ok q =>
        match search mdl q (top_k mdl) s with
        | Err e => Ok {| answer_text := unable_answer;
                         answer_status := Degraded (Some e) |}
        | Ok hits =>
            if no_relevant hits
            then Ok {| answer_text := no_information_answer;
                       answer_status := Degraded None |}
            else
              let passages := map (fun h => text (fst h)) hits in
              if use_advanced then
                match generate mdl question
                        (fit_context (max_context mdl) passages) with
                | Ok a => Ok {| answer_text := a;
                                answer_status := Answered Advanced |}
                | Err e => Ok {| answer_text := compose_template mdl question passages;
                                 answer_status := Fallback e |}
                end
              else Ok {| answer_text := compose_template mdl question passages;
                         answer_status := Answered Template |}
        end
    end.

(** ** reprocess_docs.py, on top of that contract

    [s0] is the store the freshly built [DocumentProcessor()] holds; the
    result is the printed line, or the exception that ended the script. *)
Definition reprocess_docs (s0 : VectorStore mdl) : outcome pystr * VectorStore mdl :=
  let s1 := clear_all_documents s0 in
  let s2 := add_sample_documents mdl s1 in
  let stats := get_vector_store_stats s2 in
  match dict_get stats (py "total_documents") with
  | Ret n => (Ret ([9989; 32] ++ py "Success! Processed " ++ str_of_int n
                   ++ py " document chunks"), s2)
  | Raise e => (Raise e, s2)
  end.

End QueryEngine.

(** ** The two front-end handlers that talk to the query engine *)

Section Handlers.

Context (env : Env).

Local Abbreviation M := (M env).

Definition st_metric (label : pystr) (value : Z) : M unit :=
  emit (StMetric label value).

(** [os.path.exists(path)] *)
Definition os_path_exists (f : FS) (path : pystr) : bool :=
  bool_decide (path ∈ dirs f) || bool_decide (path ∈ dom (files f)).

(** [os.listdir(path)]: the entries whose directory is [path]. *)
Definition os_listdir (path : pystr) : M (list pystr) :=
  let* f := get_fs in
  if bool_decide (path ∈ dirs f)
  then ret (List.filter (fun q => bool_decide (parent q = Some path))
                        (elements (dom (files f) ∪ dirs f)))
  else if bool_decide (path ∈ dom (files f)) then raise NotADirectoryError
  else raise FileNotFoundError.

(** Lines 207 to 212, the body of the "Refresh Stats" button;
    [get_stats] is [query_engine.get_vector_store_stats]. *)
Definition on_refresh_stats (get_stats : M dict) : M unit :=
  let* stats := get_stats in
  let* total := lift (dict_get stats (py "total_documents")) in
  st_metric (py "Total Documents") total >>
  let* d := lift (dict_get stats (py "dimension")) in
  st_metric (py "Vector Dimension") d >>
  let* f := get_fs in
  let* n := (if os_path_exists f (py "uploads")
             then let* l := os_listdir (py "uploads") in ret (Z.of_nat (length l))
             else ret 0%Z) in
  st_metric ([128194; 32] ++ py "Uploaded Docs") n.

(** Lines 286 to 303, the body of the "Ask Question" button; [ask] is
    [query_engine.ask_question], [chat_history] the session entry of that
    name ([None] while the key is absent). *)
Definition on_ask {A : Type} (ask : pystr -> bool -> M A)
    (ask_button : bool) (question : pystr) (use_advanced : bool)
    (chat_history : option (list (pystr * A)))
  : M (option (list (pystr * A))) :=
  if ask_button && negb (str_eqb question []) then
    try_except
      (let* answer := ask question use_advanced in
       let history := match chat_history with
                      | None => []
                      | Some h => h
                      end in
       ret (Some (history ++ [(question, answer)])))
      (fun e => st_error (py "Error generating answer: ") (Some e)
                >> ret chat_history)
  else ret chat_history.

End Handlers.

(* ===================================================================== *)
(** * Part 5. Observations, sample data                                   *)
(* ===================================================================== *)

(** The calls to the document processor recorded in a trace. *)
Definition is_call (ev : Event) : option ProcessorCall :=
  match ev with
  | Call c => Some c
  | _ => None
  end.

Definition calls (t : list Event) : list ProcessorCall := omap is_call t.

(** Messages shown to the user. *)
Definition is_ui (ev : Event) : bool :=
  match ev with
  | StError _ _ | StSuccess _ | StInfo _ | StMetric _ _ => true
  | _ => false
  end.

(** Events that touch neither the uploads directory's files nor the
    processor: reading the upload, calling a reader, showing a message. *)
Definition is_reading (ev : Event) : bool :=
  match ev with
  | UploadRead _ | DocxDocument _ | PdfReader _ | PdReadCsv _
  | StError _ _ => true
  | _ => false
  end.

(** The world after some more events, nothing else changed. *)
Definition log {env : Env} (w : World env) (evs : list Event) : World env :=
  {| fs := fs w; proc := proc w; trace := trace w ++ evs |}.

(** The pages of a PDF put together, or the first failure met. *)
Fixpoint pdf_fold (pages : list (outcome pystr)) (text : pystr) : outcome pystr :=
  match pages with
  | [] => Ret text
  | Ret t :: rest => pdf_fold rest (text ++ t ++ nl)
  | Raise e :: _ => Raise e
  end.

(** What a run of [process_uploaded_file] that reaches the processor looks
    like: the directory was made, the extension selected an extractor, the
    extractor gave a text with something in it, the text was written to the
    processed path, and only then [process_text_file] was called, on a file
    system that already holds the text; messages follow. *)
Definition ingested (env : Env) (file : UploadedFile) (w : World env)
    (b : bool) (w' : World env) (text : pystr) : Prop :=
  let path := processed_path (name file) in
  let id := path_stem (name file) in
  exists extract w1 w2 pr post,
    os_makedirs env (py "uploads") w = (Ret tt, w1)
    /\ extract_by_type env (lower env (path_suffix (name file))) file = Some extract
    /\ extract w1 = (Ret (Some text), w2)
    /\ blank text = false
    /\ utf8_encodable text = true
    /\ fs w' = {| dirs := {[py "uploads"]} ∪ dirs (fs w);
                  files := <[path := text]> (files (fs w)) |}
    /\ process_text_file env (proc w) (fs w') path id = (pr, proc w')
    /\ b = match pr with Ret true => true | _ => false end
    /\ trace w' = trace w2 ++ [OpenW path; FileWrite path text;
                               Call (CallProcessTextFile path id)] ++ post
    /\ forallb is_ui post = true
    /\ calls (trace w2) = calls (trace w).

(** The three extractors that wrap a third-party reader. *)
Inductive reader : Type := Docx | Pdf | Csv.

Definition reader_extension (k : reader) : pystr :=
  match k with
  | Docx => py ".docx"
  | Pdf => py ".pdf"
  | Csv => py ".csv"
  end.

Definition run_extractor (env : Env) (k : reader) (file : UploadedFile)
  : M env (option pystr) :=
  match k with
  | Docx => extract_text_from_docx env file
  | Pdf => extract_text_from_pdf env file
  | Csv => extract_text_from_csv env file
  end.

Definition raises {A} (o : outcome A) : bool :=
  match o with
  | Raise _ => true
  | Ret _ => false
  end.

(** The reader behind the extractor fails on this file: opening it raises,
    or (PDF) some page's [extract_text] raises. *)
Definition reader_error (env : Env) (k : reader) (file : UploadedFile) : bool :=
  match k with
  | Docx => raises (docx_Document env (content file))
  | Pdf => match pdf_PdfReader env (content file) with
           | Raise _ => true
           | Ret pages => existsb raises pages
           end
  | Csv => raises (pd_read_csv env (content file))
  end.

(** The extensions [process_uploaded_file] has a branch for. *)
Definition supported_extensions : list pystr :=
  [py ".txt"; py ".docx"; py ".pdf"; py ".csv"].

(** Events of the two steps that come before the extension is looked at or
    that report a failure: making the directory, showing an error. *)
Definition is_housekeeping (ev : Event) : bool :=
  match ev with
  | OsMakedirs _ | StError _ _ => true
  | _ => false
  end.



Definition engine_stats (env : Env) (mdl : Models)
    (view : proc_state env -> VectorStore mdl) : M env dict :=
  fun w => (Ret (get_vector_store_stats (view (proc w))), w).

(** ** A small concrete installation, for examples *)

Definition demo_frame : DataFrame :=
  {| columns := [ {| label := py "name"; col_dtype := ObjectT;
                     cells := [py "ann"; py "bob"] |};
                  {| label := py "age"; col_dtype := Int64;
                     cells := [py "31"; py "42"] |} ];
     nrows := 2 |}.

Definition demo_env : Env :=
  {| lower_nonascii := fun c => [c];
     docx_Document := fun _ => Raise (LibraryError (py "File is not a zip file"));
     pdf_PdfReader := fun _ => Ret [Ret (py "page one");
                                    Raise (LibraryError (py "broken page"))];
     pd_read_csv := fun _ => Ret demo_frame;
     df_to_string := fun index df => join nl (map label (columns df));
     df_describe := fun df => df;
     os_fault := fun _ _ => None;
     proc_state := nat;
     process_text_file := fun n f path id =>
       (Ret (bool_decide (is_Some (files f !! path))), S n) |}.

Definition empty_world : World demo_env :=
  @mkWorld demo_env {| dirs := ∅; files := ∅ |} O [].

Definition hi_txt : UploadedFile :=
  {| name := py "a.txt"; content := [x68; x69]%byte |}.

Definition spaces_txt : UploadedFile :=
  {| name := py "blank.TXT"; content := [x20; x0a; xc2; xa0]%byte |}.

Definition report_docx : UploadedFile :=
  {| name := py "report.docx"; content := [x50; x4b]%byte |}.

Definition people_csv : UploadedFile :=
  {| name := py "people.csv"; content := [] |}.

Definition tool_exe : UploadedFile :=
  {| name := py "tool.exe"; content := [x4d; x5a]%byte |}.

(** The worlds the blank upload goes through. *)
Definition txt_extract (file : UploadedFile) : M demo_env (option pystr) :=
  let* text := read_utf8 demo_env file in ret (Some text).

Definition spaces_w1 : World demo_env :=
  snd (os_makedirs demo_env (py "uploads") empty_world).

Definition spaces_w2 : World demo_env :=
  snd (txt_extract spaces_txt spaces_w1).

Definition hi_final : World demo_env :=
  snd (process_uploaded_file demo_env hi_txt empty_world).

(** A chunk of the store comes from a built-in sample document: it carries
    that document's id and one of the passages of its text. *)
Definition from_samples (mdl : Models) (c : Chunk mdl) : Prop :=
  exists d,
    In d (sample_documents mdl)
    /\ document_id c = fst d
    /\ In (text c) (chunk mdl (snd d) (chunk_size mdl) (overlap mdl)).

(** The line the script prints. *)
Definition success_line (n : Z) : pystr :=
  [9989; 32] ++ py "Success! Processed " ++ str_of_int n ++ py " document chunks".

(** A toy installation of the core: one passage per document, texts
    compared by length, no generative model at hand. *)
Definition demo_models : Models :=
  {| vector := Z;
     score := Z;
     chunk := fun t _ _ => [t];
     chunk_size := 100;
     overlap := 20;
     embed := fun t => Ok (Z.of_nat (length t));
     similarity := fun a b => (- Z.abs (a - b))%Z;
     score_ltb := Z.ltb;
     min_relevance := (-1000)%Z;
     top_k := 3%Z;
     max_context := 200;
     generate := fun _ _ => Err ModelUnavailable;
     compose_template := fun _ ps => py "Based on the documents: " ++ join nl ps;
     sample_documents :=
       [(py "hr-policy", py "Employees receive 15 vacation days per year.");
        (py "it-support", py "Contact the help desk for IT issues.")] |}.

Definition stale_store : VectorStore demo_models :=
  {| entries := [ @mkChunk demo_models (py "old") 0 (py "left over") 9%Z;
                  @mkChunk demo_models (py "old") 1 (py "from before") 11%Z ];
     dim := 1 |}.

Definition yo_txt : UploadedFile :=
  {| name := py "a.txt"; content := [x79; x6f]%byte |}.

Definition after_samples : VectorStore demo_models :=
  add_sample_documents demo_models (mkStore [] 1).

(** ** More observations and sample data, for Part 7 *)

(** The world right after [os.makedirs("uploads", exist_ok=True)] went
    through. *)
Definition made_uploads {env : Env} (w : World env) : World env :=
  @mkWorld env {| dirs := {[py "uploads"]} ∪ dirs (fs w); files := files (fs w) |}
           (proc w) (trace w ++ [OsMakedirs (py "uploads")]).

(** An installation whose PDF reader hands back text with surrogate code
    points in it, which no UTF-8 stream accepts. *)
Definition surrogate_env : Env :=
  {| lower_nonascii := fun c => [c];
     docx_Document := fun _ => Ret [py "minutes"];
     pdf_PdfReader := fun _ => Ret [Ret [55349; 56500]];
     pd_read_csv := fun _ => Ret {| columns := []; nrows := 0 |};
     df_to_string := fun _ _ => py "Empty DataFrame";
     df_describe := fun df => df;
     os_fault := fun _ _ => None;
     proc_state := nat;
     process_text_file := fun n f path id => (Ret true, S n) |}.

Definition report_pdf : UploadedFile :=
  {| name := py "report.pdf"; content := [x25; x50; x44; x46]%byte |}.

(** A world in which an earlier upload of [report.pdf] left its text. *)
Definition report_world : World surrogate_env :=
  @mkWorld surrogate_env
    {| dirs := {[py "uploads"]};
       files := {[py "uploads/report.pdf_processed.txt" := py "last week's text"]} |}
    O [].

Definition latin1_txt : UploadedFile :=
  {| name := py "notes.txt"; content := [x63; x61; x66; xe9]%byte |}.

Definition scan_pdf : UploadedFile :=
  {| name := py "scan.pdf"; content := [] |}.

(** A page of a PDF whose text could be extracted and is blank, as every
    page of a scan without a text layer is. *)
Definition blank_page (page : outcome pystr) : bool :=
  match page with
  | Ret t => blank t
  | Raise _ => false
  end.


(** What [os.listdir("uploads")] lists in a given file system. *)
Definition uploads_entries (f : FS) : list pystr :=
  List.filter (fun q => bool_decide (parent q = Some (py "uploads")))
              (elements (dom (files f) ∪ dirs f)).

(** An installation whose readers find documents with nothing written in
    them. *)
Definition quiet_env : Env :=
  {| lower_nonascii := fun c => [c];
     docx_Document := fun _ => Ret [[]; py "   "; [9]];
     pdf_PdfReader := fun _ => Ret [Ret []; Ret (py "  ")];
     pd_read_csv := fun _ => Ret {| columns := []; nrows := 0 |};
     df_to_string := fun _ _ => py "Empty DataFrame";
     df_describe := fun df => df;
     os_fault := fun _ _ => None;
     proc_state := nat;
     process_text_file := fun n f path id => (Ret true, S n) |}.

Definition quiet_world : World quiet_env :=
  @mkWorld quiet_env {| dirs := ∅; files := ∅ |} O [].



(** ** The page: [show_document_manager] and the parts of [main] that
       drive the upload path and the chat

    Widgets ([st.button], [st.text_area], [st.checkbox]) are inputs: what
    they return in a run is given.  Layout calls ([st.columns], [with]
    blocks, [st.spinner]) place things and are not recorded.  Everything
    else the page does is recorded, in order. *)

Inductive PageEvent : Type :=
  | Ran (ev : Event)                 (* an event of Part 2, in its place *)
  | StSubheader (text : pystr)
  | StHeader (text : pystr)
  | StWrite (text : pystr)
  | StProgressStart                  (* [st.progress(0)] *)
  | StProgress (done total : nat)    (* [progress_bar.progress(done / total)] *)
  | StChat (question answer : pystr) (* the [<div>] block of one exchange *)
  | OsRemove (path : pystr).

Record Page (env : Env) : Type := mkPage {
  pfs : FS;
  pproc : proc_state env;
  shown : list PageEvent
}.
Arguments mkPage {env} pfs pproc shown.
Arguments pfs {env} _.
Arguments pproc {env} _.
Arguments shown {env} _.

Definition PM (env : Env) (A : Type) : Type := Page env -> outcome A * Page env.

Definition pret {env A} (a : A) : PM env A := fun s => (Ret a, s).

Definition praise {env A} (e : exn) : PM env A := fun s => (Raise e, s).

Definition pbind {env A B} (m : PM env A) (k : A -> PM env B) : PM env B :=
  fun s =>
    match m s with
    | (Ret a, s') => k a s'
    | (Raise e, s') => (Raise e, s')
    end.

Definition show {env} (ev : PageEvent) : PM env unit :=
  fun s => (Ret tt, {| pfs := pfs s; pproc := pproc s; shown := shown s ++ [ev] |}).

(** A computation of Part 3 run from the page: it works on the page's file
    system and processor, and what it did is entered in the page's record. *)
Definition run_low {env A} (m : M env A) : PM env A :=
  fun s =>
    let '(r, w') := m (mkWorld (pfs s) (pproc s) []) in
    (r, {| pfs := fs w'; pproc := proc w';
           shown := shown s ++ map Ran (trace w') |}).

Notation "'let+' x ':=' m 'in' k" := (pbind m (fun x => k))
  (at level 10, x name, m at level 100, k at level 200).
Notation "m '>>+' k" := (pbind m (fun _ => k))
  (at level 90, right associativity).

(** The calls to the processor recorded on a page. *)
Definition low_event (ev : PageEvent) : option Event :=
  match ev with
  | Ran e => Some e
  | _ => None
  end.

Definition page_calls (evs : list PageEvent) : list ProcessorCall :=
  calls (omap low_event evs).

(** A progress value within the range [st.progress] accepts, for a list of
    [total] files: between 1 and [total] files done. *)
Definition progress_in_range (total : nat) (ev : PageEvent) : Prop :=
  match ev with
  | StProgress done t => t = total /\ (1 <= done <= total)%nat
  | _ => True
  end.

Section PageCode.

Context (env : Env).

(** *** Lines 180 to 201: the selected files and "Process All Files" *)

(** [file_type_icons] *)
Definition file_type_icons : gmap pystr pystr :=
  <[py ".pdf" := [128209]]>
  (<[py ".txt" := [128196]]>
  (<[py ".docx" := [128221]]>
  (<[py ".csv" := [128202]]> ∅))).

Definition folder_icon : pystr := [128193].

(** [for file in uploaded_files: ... st.write(f"{icon} {file.name} ({file.size} bytes)")] *)
Fixpoint list_selected_files (uploaded_files : list UploadedFile) : PM env unit :=
  match uploaded_files with
  | [] => pret tt
  | file :: rest =>
      let ext := lower env (path_suffix (name file)) in
      let icon := default folder_icon (file_type_icons !! ext) in
      show (StWrite (icon ++ [32] ++ name file ++ py " ("
                     ++ str_of_nat (length (content file)) ++ py " bytes)")) >>+
      list_selected_files rest
  end.

(** [for i, uploaded_file in enumerate(uploaded_files): ...]; [total] is
    [len(uploaded_files)] of the whole list. *)
Fixpoint process_files_loop (total i : nat) (uploaded_files : list UploadedFile)
    (success_count : nat) : PM env nat :=
  match uploaded_files with
  | [] => pret success_count
  | uploaded_file :: rest =>
      show (StWrite (py "Processing: " ++ name uploaded_file ++ py "...")) >>+
      let+ ok := run_low (process_uploaded_file env uploaded_file) in
      let success_count := if ok then (success_count + 1)%nat else success_count in
      show (StProgress (i + 1) total) >>+
      process_files_loop total (i + 1) rest success_count
  end.

(** The body of [if st.button("Process All Files"):]. *)
Definition process_all_files (uploaded_files : list UploadedFile) : PM env unit :=
  show StProgressStart >>+
  let+ success_count :=
    process_files_loop (length uploaded_files) 0 uploaded_files 0 in
  run_low (st_success ([9989; 32] ++ py "Successfully processed "
                       ++ str_of_nat success_count ++ py "/"
                       ++ str_of_nat (length uploaded_files) ++ py " files!")).

(** The block under [if uploaded_files:]; [process_clicked] is what the
    button returned in this run. *)
Definition selected_files_block (uploaded_files : list UploadedFile)
    (process_clicked : bool) : PM env unit :=
  match uploaded_files with
  | [] => pret tt
  | _ :: _ =>
      show (StWrite (py "**Selected files ("
                     ++ str_of_nat (length uploaded_files) ++ py "):**")) >>+
      list_selected_files uploaded_files >>+
      if process_clicked then process_all_files uploaded_files else pret tt
  end.

(** *** show_document_manager *)

(** The names [os.listdir("uploads")] returns: the entries without the
    directory and the slash in front. *)
Definition listdir_names (f : FS) : list pystr :=
  map (drop 8) (uploads_entries f).

(** [os.remove(path)]; [remove_fault] is what the operating system may
    object (permissions and the like). *)
Definition os_remove (remove_fault : FS -> pystr -> option exn) (path : pystr)
  : PM env unit :=
  show (OsRemove path) >>+
  fun s =>
    match remove_fault (pfs s) path with
    | Some e => (Raise e, s)
    | None =>
        if bool_decide (path ∈ dom (files (pfs s)))
        then (Ret tt, {| pfs := {| dirs := dirs (pfs s);
                                   files := delete path (files (pfs s)) |};
                         pproc := pproc s; shown := shown s |})
        else if bool_decide (path ∈ dirs (pfs s)) then (Raise IsADirectoryError, s)
        else (Raise FileNotFoundError, s)
    end.

(** The loop over the listed files; [clicked key] is what the delete button
    with that key returned in this run.  The result is [true] when
    [st.experimental_rerun()] ended the run. *)
Fixpoint manager_loop (remove_fault : FS -> pystr -> option exn)
    (clicked : pystr -> bool) (uploaded_files : list pystr) : PM env bool :=
  match uploaded_files with
  | [] => pret false
  | file :: rest =>
      show (StWrite ([128196; 32] ++ file)) >>+
      if clicked (py "delete_" ++ file) then
        os_remove remove_fault (py "uploads/" ++ file) >>+
        run_low (st_success (py "Deleted " ++ file)) >>+
        pret true
      else manager_loop remove_fault clicked rest
  end.

Definition show_document_manager (remove_fault : FS -> pystr -> option exn)
    (clicked : pystr -> bool) : PM env bool :=
  show (StSubheader ([128203; 32] ++ py "Document Database")) >>+
  fun s =>
    if os_path_exists (pfs s) (py "uploads") then
      (let+ uploaded_files :=
         (fun s => if bool_decide (py "uploads" ∈ dirs (pfs s))
                   then (Ret (listdir_names (pfs s)), s)
                   else (Raise NotADirectoryError, s)) in
       match uploaded_files with
       | [] => pret false
       | _ :: _ =>
           show (StWrite (py "**Uploaded Documents:**")) >>+
           manager_loop remove_fault clicked uploaded_files
       end) s
    else (Ret false, s).

(** *** Lines 245 to 314: the chat *)

Record Session (A : Type) : Type := mkSession {
  current_question : option pystr;                (* [None]: key absent *)
  chat_history : option (list (pystr * A))
}.
Arguments mkSession {A} current_question chat_history.
Arguments current_question {A} _.
Arguments chat_history {A} _.

(** What the widgets of the chat column return in one run; [typed] is the
    text area, given the value it is created with. *)
Record ChatInput : Type := mkChatInput {
  vacation_button : bool;
  expense_button : bool;
  it_button : bool;
  typed : pystr -> pystr;
  ask_button : bool;
  clear_button : bool
}.

(** [for chat in reversed(st.session_state.chat_history): st.markdown(...)] *)
Fixpoint show_exchanges {A} (str : A -> pystr) (chats : list (pystr * A))
  : PM env unit :=
  match chats with
  | [] => pret tt
  | chat :: rest =>
      show (StChat (fst chat) (str (snd chat))) >>+ show_exchanges str rest
  end.

(** Lines 306 to 314. *)
Definition display_chat_history {A} (str : A -> pystr)
    (history : option (list (pystr * A))) : PM env unit :=
  match history with
  | Some (chat :: rest) =>
      show (StHeader ([128173; 32] ++ py "Chat History")) >>+
      show_exchanges str (rev (chat :: rest))
  | _ => pret tt
  end.

(** One run of the chat column; [ask] is [query_engine.ask_question] and
    [str] Python's [str()] on what it returns. *)
Definition chat_section {A} (ask : pystr -> bool -> M env A) (str : A -> pystr)
    (use_advanced : bool) (inp : ChatInput) (session : Session A)
  : PM env (Session A) :=
  (* Quick question buttons *)
  let cq := current_question session in
  let cq := if vacation_button inp
            then Some (py "What's our vacation policy?") else cq in
  let cq := if expense_button inp
            then Some (py "How do I submit expense reports?") else cq in
  let cq := if it_button inp
            then Some (py "Who should I contact for IT issues?") else cq in
  (* Question input *)
  let cq := match cq with None => Some [] | Some _ => cq end in
  let question := typed inp (default [] cq) in
  (* Clear the current question after displaying *)
  let cq := if negb (str_eqb (default [] cq) []) then Some [] else cq in
  let+ history :=
    (if clear_button inp
     then run_low (st_success (py "Chat cleared!")) >>+ pret (Some [])
     else pret (chat_history session)) in
  let+ history :=
    run_low (on_ask env ask (ask_button inp) question use_advanced history) in
  display_chat_history str history >>+
  pret {| current_question := cq; chat_history := history |}.

(** Reruns of the chat column, one after the other. *)
Fixpoint chat_runs {A} (ask : pystr -> bool -> M env A) (str : A -> pystr)
    (use_advanced : bool) (inputs : list ChatInput) (session : Session A)
  : PM env (Session A) :=
  match inputs with
  | [] => pret session
  | inp :: rest =>
      let+ session' := chat_section ask str use_advanced inp session in
      chat_runs ask str use_advanced rest session'
  end.

End PageCode.

Arguments mkSession {A} current_question chat_history.
Arguments current_question {A} _.
Arguments chat_history {A} _.

(** ** Sample data for the page *)

(** A question was typed: the stored pair has something on its left. *)
Definition asked {A} (chat : pystr * A) : Prop := fst chat <> [].

(** The events a list of exchanges is shown as. *)
Definition exchange_events {A} (str : A -> pystr) (chats : list (pystr * A))
  : list PageEvent :=
  map (fun chat => StChat (fst chat) (str (snd chat))) chats.

Definition is_chat_display (ev : PageEvent) : bool :=
  match ev with
  | StHeader _ | StChat _ _ => true
  | _ => false
  end.

Definition fresh_session {A} : Session A :=
  {| current_question := None; chat_history := None |}.

(** An engine that echoes the question, and breaks on one of them. *)
Definition demo_ask (question : pystr) (use_advanced : bool) : M demo_env pystr :=
  fun w =>
    if str_eqb question (py "boom")
    then (Raise (LibraryError (py "model missing")), w)
    else (Ret (py "You asked: " ++ question), w).

Definition demo_page : Page demo_env :=
  @mkPage demo_env {| dirs := ∅; files := ∅ |} O [].

Definition quick_vacation : ChatInput :=
  {| vacation_button := true; expense_button := false; it_button := false;
     typed := fun value => value; ask_button := false; clear_button := false |}.

Definition ask_typed (text : pystr) : ChatInput :=
  {| vacation_button := false; expense_button := false; it_button := false;
     typed := fun _ => text; ask_button := true; clear_button := false |}.

Definition one_exchange : Session pystr :=
  {| current_question := Some [];
     chat_history := Some [(py "first?", py "You asked: first?")] |}.

Definition second_run : outcome (Session pystr) * Page demo_env :=
  chat_section demo_env demo_ask (fun a => a) false (ask_typed (py "second?"))
               one_exchange demo_page.

Definition second_session : Session pystr :=
  match fst second_run with
  | Ret session => session
  | Raise _ => fresh_session
  end.


(** An operating system that lets every removal through. *)
Definition lets_remove (f : FS) (path : pystr) : option exn := None.

(** The page opened on the files the upload of [a.txt] left. *)
Definition hi_page : Page demo_env := @mkPage demo_env (fs hi_final) (proc hi_final) [].

Definition three_reruns : list ChatInput :=
  [quick_vacation; ask_typed (py "What's our vacation policy?"); ask_typed (py "boom")].

(* ===================================================================== *)
(** * Part 6. Properties                                                  *)
(* ===================================================================== *)

Ltac monad_unfold :=
  unfold bind, ret, raise, lift, emit, get_fs, set_fs, try_except,
         st_error, st_success, st_info, st_metric, log in *.

(** ** Python strings *)

Lemma lstrip_blank (s : pystr) : blank s = true -> lstrip s = [].
Proof.
  induction s as [|c r IH]; simpl; [reflexivity|].
  intros H. apply andb_prop in H as [Hc Hr]. rewrite Hc. auto.
Qed.

Lemma lstrip_head (s : pystr) c r : lstrip s = c :: r -> is_space c = false.
Proof.
  induction s as [|x t IH]; simpl; [discriminate|].
  destruct (is_space x) eqn:E; [assumption|].
  intros [= -> _]. exact E.
Qed.

Lemma lstrip_nil (s : pystr) : lstrip s = [] -> blank s = true.
Proof.
  induction s as [|c r IH]; simpl; [reflexivity|].
  destruct (is_space c); [auto | discriminate].
Qed.

Lemma blank_rev (s : pystr) : blank (rev s) = blank s.
Proof.
  unfold blank. apply eq_true_iff_eq.
  rewrite !forallb_forall. split; intros H x Hx; apply H.
  - apply in_rev in Hx. exact Hx.
  - apply in_rev. exact Hx.
Qed.

(** [strip] leaves nothing exactly when the text is white space only. *)
Lemma strip_nil_iff (s : pystr) : strip s = [] <-> blank s = true.
Proof.
  unfold strip, rstrip. split.
  - intros H.
    assert (Hl : lstrip (rev (lstrip s)) = []).
    { destruct (lstrip (rev (lstrip s))) as [|a l]; [reflexivity|].
      apply (f_equal (@length N)) in H. rewrite length_rev in H. discriminate. }
    apply lstrip_nil in Hl. rewrite blank_rev in Hl.
    destruct (lstrip s) as [|c r] eqn:E.
    + apply lstrip_nil. exact E.
    + apply lstrip_head in E. simpl in Hl. rewrite E in Hl. discriminate.
  - intros H. rewrite (lstrip_blank s H). reflexivity.
Qed.

Lemma no_text_Some (s : pystr) : no_text (Some s) = blank s.
Proof.
  unfold no_text, str_eqb. apply eq_true_iff_eq.
  rewrite orb_true_iff, bool_decide_eq_true, Nat.eqb_eq.
  rewrite <- strip_nil_iff. split.
  - intros [-> | H]; [reflexivity|].
    destruct (strip s); [reflexivity | discriminate].
  - intros ->. right. reflexivity.
Qed.

(** ** The extractors, step by step *)

Lemma pdf_loop_run env pages text (w : World env) :
  pdf_loop env pages text w = (pdf_fold pages text, w).
Proof.
  revert text w. induction pages as [|[t|e] rest IH]; intros text w; simpl.
  - reflexivity.
  - monad_unfold. simpl. apply IH.
  - reflexivity.
Qed.

Lemma pdf_fold_raises pages text :
  raises (pdf_fold pages text) = existsb raises pages.
Proof.
  revert text. induction pages as [|[t|e] rest IH]; intros text; simpl; auto.
Qed.

Lemma extract_docx_run env file (w : World env) :
  extract_text_from_docx env file w =
  match docx_Document env (content file) with
  | Ret paragraphs =>
      (Ret (Some (docx_loop paragraphs [])), log w [DocxDocument (name file)])
  | Raise e =>
      (Ret None, log w [DocxDocument (name file);
                        StError (py "Error reading DOCX file: ") (Some e)])
  end.
Proof.
  unfold extract_text_from_docx. monad_unfold. simpl.
  destruct (docx_Document env (content file)); simpl; [reflexivity|].
  rewrite <- app_assoc. reflexivity.
Qed.

Lemma extract_pdf_run env file (w : World env) :
  extract_text_from_pdf env file w =
  match pdf_PdfReader env (content file) with
  | Ret pages =>
      match pdf_fold pages [] with
      | Ret text => (Ret (Some text), log w [PdfReader (name file)])
      | Raise e =>
          (Ret None, log w [PdfReader (name file);
                            StError (py "Error reading PDF file: ") (Some e)])
      end
  | Raise e =>
      (Ret None, log w [PdfReader (name file);
                        StError (py "Error reading PDF file: ") (Some e)])
  end.
Proof.
  unfold extract_text_from_pdf. monad_unfold. simpl.
  destruct (pdf_PdfReader env (content file)) as [pages|e]; simpl.
  - rewrite pdf_loop_run.
    destruct (pdf_fold pages []); simpl; [reflexivity|].
    rewrite <- app_assoc. reflexivity.
  - rewrite <- app_assoc. reflexivity.
Qed.

Lemma extract_csv_run env file (w : World env) :
  extract_text_from_csv env file w =
  match pd_read_csv env (content file) with
  | Ret df =>
      (Ret (Some (csv_text env (name file) df)), log w [PdReadCsv (name file)])
  | Raise e =>
      (Ret None, log w [PdReadCsv (name file);
                        StError (py "Error reading CSV file: ") (Some e)])
  end.
Proof.
  unfold extract_text_from_csv. monad_unfold. simpl.
  destruct (pd_read_csv env (content file)); simpl; [reflexivity|].
  rewrite <- app_assoc. reflexivity.
Qed.

(** An extractor never raises; it only reads and reports. *)
Lemma run_extractor_frame env k file (w : World env) :
  exists r evs,
    run_extractor env k file w = (Ret r, log w evs)
    /\ forallb is_reading evs = true
    /\ (reader_error env k file = true -> r = None).
Proof.
  destruct k; simpl.
  - rewrite extract_docx_run.
    destruct (docx_Document env (content file)); simpl;
      eexists _, _; (split; [reflexivity|]); split; auto; discriminate.
  - rewrite extract_pdf_run.
    destruct (pdf_PdfReader env (content file)) as [pages|e]; simpl.
    + rewrite <- (pdf_fold_raises pages []).
      destruct (pdf_fold pages []); simpl;
        eexists _, _; (split; [reflexivity|]); split; auto; discriminate.
    + eexists _, _; (split; [reflexivity|]); split; auto.
  - rewrite extract_csv_run.
    destruct (pd_read_csv env (content file)); simpl;
      eexists _, _; (split; [reflexivity|]); split; auto; discriminate.
Qed.

(** ** Traces *)

Lemma calls_app (a b : list Event) : calls (a ++ b) = calls a ++ calls b.
Proof. unfold calls. apply omap_app. Qed.

Lemma calls_reading (evs : list Event) :
  forallb is_reading evs = true -> calls evs = [].
Proof.
  induction evs as [|ev r IH]; simpl; [reflexivity|].
  intros H. apply andb_prop in H as [Hev Hr].
  unfold calls in *. simpl. destruct ev; simpl in *; try discriminate; auto.
Qed.

Lemma calls_ui (evs : list Event) :
  forallb is_ui evs = true -> calls evs = [].
Proof.
  induction evs as [|ev r IH]; simpl; [reflexivity|].
  intros H. apply andb_prop in H as [Hev Hr].
  unfold calls in *. simpl. destruct ev; simpl in *; try discriminate; auto.
Qed.

(** ** The steps of [process_uploaded_file] *)

Lemma os_makedirs_run env path (w : World env) :
  os_makedirs env path w =
  match os_fault env SysMakedirs (fs w) with
  | Some e => (Raise e, log w [OsMakedirs path])
  | None =>
      if bool_decide (path ∈ dom (files (fs w)))
      then (Raise FileExistsError, log w [OsMakedirs path])
      else (Ret tt, @mkWorld env {| dirs := {[path]} ∪ dirs (fs w);
                                    files := files (fs w) |}
                             (proc w) (trace w ++ [OsMakedirs path]))
  end.
Proof.
  unfold os_makedirs. monad_unfold. simpl.
  destruct (os_fault env SysMakedirs (fs w)); [reflexivity|].
  destruct (bool_decide _); reflexivity.
Qed.

(** Whatever extractor the extension selects, it leaves files and processor
    alone; it can only raise for a text file that is not UTF-8. *)
Lemma extract_by_type_frame env ext file extract (w : World env) :
  extract_by_type env ext file = Some extract ->
  exists r evs,
    extract w = (r, log w evs) /\ forallb is_reading evs = true.
Proof.
  unfold extract_by_type.
  destruct (str_eqb ext (py ".txt")).
  { intros [= <-]. unfold read_utf8. monad_unfold. simpl.
    destruct (utf8_decode _); simpl; eexists _, _; split; reflexivity. }
  destruct (str_eqb ext (py ".docx")).
  { intros [= <-].
    destruct (run_extractor_frame env Docx file w) as (r & evs & H & Hr & _).
    simpl in H. rewrite H. eauto. }
  destruct (str_eqb ext (py ".pdf")).
  { intros [= <-].
    destruct (run_extractor_frame env Pdf file w) as (r & evs & H & Hr & _).
    simpl in H. rewrite H. eauto. }
  destruct (str_eqb ext (py ".csv")); [|discriminate].
  intros [= <-].
  destruct (run_extractor_frame env Csv file w) as (r & evs & H & Hr & _).
  simpl in H. rewrite H. eauto.
Qed.

(** The guard of line 120. *)
Lemma after_extraction_rejects env file text_content (w : World env) :
  no_text text_content = true ->
  after_extraction env file text_content w =
  (Ret false,
   log w [StError (py "Could not extract text from the file or file is empty")
                  None]).
Proof.
  intros H. unfold after_extraction. rewrite H. reflexivity.
Qed.

(** Past the guard: either something raised before the processor was
    reached, or the text was written and the processor called on it. *)
Lemma after_extraction_accepts env file text (w : World env) :
  no_text (Some text) = false ->
  let path := processed_path (name file) in
  let id := path_stem (name file) in
  let fs3 := {| dirs := dirs (fs w); files := <[path := text]> (files (fs w)) |} in
  (exists e w',
      after_extraction env file (Some text) w = (Raise e, w')
      /\ proc w' = proc w /\ calls (trace w') = calls (trace w))
  \/ (exists pr p' post,
         utf8_encodable text = true
         /\ process_text_file env (proc w) fs3 path id = (pr, p')
         /\ after_extraction env file (Some text) w =
            (match pr with Ret b => Ret b | Raise e => Raise e end,
             @mkWorld env fs3 p'
               (trace w ++ [OpenW path; FileWrite path text;
                            Call (CallProcessTextFile path id)] ++ post))
         /\ forallb is_ui post = true).
Proof.
  intros H path id fs3. unfold after_extraction. rewrite H.
  unfold open_w, file_write, call_process_text_file. monad_unfold. simpl.
  fold path. fold id.
  destruct (os_fault env SysOpen (fs w)) as [e|].
  { left. eexists _, _. split; [reflexivity|]. simpl. split; [reflexivity|].
    rewrite calls_app. simpl. apply app_nil_r. }
  destruct (bool_decide (path ∈ dirs (fs w))).
  { left. eexists _, _. split; [reflexivity|]. simpl. split; [reflexivity|].
    rewrite calls_app. simpl. apply app_nil_r. }
  destruct (match parent path with
            | Some d => bool_decide (d ∈ dirs (fs w))
            | None => true
            end); simpl.
  2:{ left. eexists _, _. split; [reflexivity|]. simpl. split; [reflexivity|].
      rewrite calls_app. simpl. apply app_nil_r. }
  destruct (os_fault env SysWrite _) as [e|]; simpl.
  { left. eexists _, _. split; [reflexivity|]. simpl. split; [reflexivity|].
    rewrite calls_app. simpl. apply app_nil_r. }
  destruct (utf8_encodable text) eqn:Henc; simpl.
  2:{ left. eexists _, _. split; [reflexivity|]. simpl. split; [reflexivity|].
      rewrite calls_app. simpl. apply app_nil_r. }
  right. rewrite insert_insert_eq.
  destruct (process_text_file env (proc w) fs3 path id) as [pr p'] eqn:Hp.
  subst fs3. rewrite Hp.
  destruct pr as [[|]|e]; simpl.
  - exists (Ret true), p', [StSuccess ([9989; 32] ++ py "Successfully processed '"
                                       ++ name file ++ py "'!");
                            StInfo ([128196; 32] ++ py "Extracted "
                                    ++ str_of_nat (length text)
                                    ++ py " characters of text")].
    repeat split. f_equal. f_equal. rewrite <- !app_assoc. reflexivity.
  - exists (Ret false), p', [StError (py "Failed to process the document") None].
    repeat split. f_equal. f_equal. rewrite <- !app_assoc. reflexivity.
  - exists (Raise e), p', [].
    repeat split. f_equal. f_equal. rewrite <- !app_assoc. reflexivity.
Qed.

(** Every run of [process_uploaded_file] returns a boolean; it either went
    all the way to the processor, or it returned [False] without calling
    it. *)
Lemma process_uploaded_file_cases env file (w : World env) :
  exists b w',
    process_uploaded_file env file w = (Ret b, w')
    /\ ((exists text, ingested env file w b w' text)
        \/ (b = false /\ proc w' = proc w
            /\ calls (trace w') = calls (trace w))).
Proof.
  unfold process_uploaded_file, process_uploaded_file_body.
  unfold try_except at 1. unfold bind at 1.
  destruct (os_makedirs env (py "uploads") w) as [[[]|e] w1] eqn:Hmk.
  2:{ (* the directory could not be made *)
      rewrite os_makedirs_run in Hmk.
      exists false. eexists. split; [reflexivity|]. right.
      destruct (os_fault env SysMakedirs (fs w));
        [|destruct (bool_decide _)]; inversion Hmk; subst; simpl;
        (split; [reflexivity|]); (split; [reflexivity|]);
        rewrite !calls_app; simpl; rewrite !app_nil_r; reflexivity. }
  assert (Hw1 : fs w1 = {| dirs := {[py "uploads"]} ∪ dirs (fs w);
                           files := files (fs w) |}
                /\ proc w1 = proc w /\ calls (trace w1) = calls (trace w)).
  { rewrite os_makedirs_run in Hmk.
    destruct (os_fault env SysMakedirs (fs w));
      [|destruct (bool_decide _)]; inversion Hmk; subst; simpl.
    repeat split. rewrite calls_app. simpl. apply app_nil_r. }
  destruct Hw1 as (Hfs1 & Hp1 & Hc1).
  destruct (extract_by_type env (lower env (path_suffix (name file))) file)
    as [extract|] eqn:Hext.
  2:{ (* unsupported extension *)
      exists false. eexists. monad_unfold. simpl. split; [reflexivity|]. right.
      simpl. split; [reflexivity|]. split; [exact Hp1|].
      rewrite calls_app. simpl. rewrite app_nil_r. exact Hc1. }
  destruct (extract_by_type_frame env _ file extract w1 Hext)
    as (r & evs & Hrun & Hevs).
  unfold bind at 1. rewrite Hrun.
  assert (Hc2 : calls (trace (log w1 evs)) = calls (trace w)).
  { simpl. rewrite calls_app, (calls_reading evs Hevs), app_nil_r. exact Hc1. }
  destruct r as [text_content|e].
  2:{ (* the extractor raised *)
      exists false. eexists. monad_unfold. simpl. split; [reflexivity|]. right.
      simpl. split; [reflexivity|]. split; [exact Hp1|].
      rewrite calls_app. simpl. rewrite app_nil_r. exact Hc2. }
  destruct (no_text text_content) eqn:Hno.
  { (* nothing to ingest *)
    rewrite (after_extraction_rejects env file text_content _ Hno).
    exists false. eexists. split; [reflexivity|]. right.
    simpl. split; [reflexivity|]. split; [exact Hp1|].
    rewrite calls_app. simpl. rewrite app_nil_r. exact Hc2. }
  destruct text_content as [text|]; [|discriminate].
  destruct (after_extraction_accepts env file text (log w1 evs) Hno)
    as [(e & w' & Hrun' & Hp' & Hc') | (pr & p' & post & Henc & Hproc & Hrun' & Hpost)].
  { (* opening or writing the processed file raised *)
    rewrite Hrun'. exists false. eexists. monad_unfold. simpl.
    split; [reflexivity|]. right. simpl.
    split; [reflexivity|]. split; [rewrite Hp'; exact Hp1|].
    rewrite calls_app. simpl. rewrite app_nil_r, Hc'. exact Hc2. }
  (* the processor was called *)
  rewrite Hrun'. simpl in Hproc. rewrite Hfs1, Hp1 in Hproc. simpl in Hproc.
  rewrite no_text_Some in Hno.
  destruct pr as [b|e].
  - exists b. eexists. split; [reflexivity|]. left. exists text.
    exists extract, w1, (log w1 evs), (Ret b), post. simpl.
    rewrite Hfs1. simpl.
    repeat split; try assumption. destruct b; reflexivity.
  - exists false. eexists. monad_unfold. simpl. split; [reflexivity|]. left.
    exists text.
    exists extract, w1, (log w1 evs), (Raise e),
           (post ++ [StError (py "Error processing file: ") (Some e)]). simpl.
    rewrite Hfs1. simpl.
    repeat split; try assumption.
    + rewrite <- !app_assoc. reflexivity.
    + rewrite forallb_app, Hpost. reflexivity.
Qed.

Lemma ingested_calls env file (w : World env) b w' text :
  ingested env file w b w' text ->
  calls (trace w') =
  calls (trace w) ++ [CallProcessTextFile (processed_path (name file))
                                          (path_stem (name file))].
Proof.
  intros (extract & w1 & w2 & pr & post & _ & _ & _ & _ & _ & _ & _ & _
          & Htr & Hpost & Hc).
  rewrite Htr, !calls_app, Hc, (calls_ui post Hpost). reflexivity.
Qed.

Lemma extract_by_type_reader env k file :
  extract_by_type env (reader_extension k) file = Some (run_extractor env k file).
Proof. destruct k; reflexivity. Qed.

Lemma extract_by_type_unsupported env ext file :
  ~ In ext supported_extensions -> extract_by_type env ext file = None.
Proof.
  intros H. unfold extract_by_type, str_eqb.
  repeat case_bool_decide; try reflexivity; exfalso; apply H; subst; simpl; auto.
Qed.

(** ** Error handling of the upload path *)

(** C3. When the extractor selected for an upload gives no text, an empty
    text or a text of white space only, [process_uploaded_file] returns
    [False] (it does not raise), shows the "could not extract" error, and
    the document processor is not called: its state and the list of calls
    made to it are what they were. *)
Theorem blank_text_is_rejected env file (w w1 w2 : World env) extract text_content :
  os_makedirs env (py "uploads") w = (Ret tt, w1) ->
  extract_by_type env (lower env (path_suffix (name file))) file = Some extract ->
  extract w1 = (Ret text_content, w2) ->
  (text_content = None \/ text_content = Some []
   \/ exists s, text_content = Some s /\ blank s = true) ->
  exists w',
    process_uploaded_file env file w = (Ret false, w')
    /\ w' = log w2 [StError
                      (py "Could not extract text from the file or file is empty")
                      None]
    /\ calls (trace w') = calls (trace w)
    /\ proc w' = proc w
    /\ files (fs w') = files (fs w).
Proof.
  intros Hmk Hext Hrun Hblank.
  assert (Hno : no_text text_content = true).
  { destruct Hblank as [-> | [-> | (s & -> & Hs)]]; try reflexivity.
    rewrite no_text_Some. exact Hs. }
  eexists. split.
  - unfold process_uploaded_file, process_uploaded_file_body.
    unfold try_except, bind. rewrite Hmk, Hext, Hrun.
    rewrite (after_extraction_rejects env file text_content w2 Hno). reflexivity.
  - split; [reflexivity|].
    destruct (extract_by_type_frame env _ file extract w1 Hext)
      as (r & evs & Hrun' & Hevs).
    rewrite Hrun in Hrun'. inversion Hrun'; subst. simpl.
    rewrite os_makedirs_run in Hmk.
    destruct (os_fault env SysMakedirs (fs w));
      [|destruct (bool_decide _)]; inversion Hmk; subst; simpl.
    repeat split.
    rewrite !calls_app, (calls_reading evs Hevs). simpl.
    rewrite !app_nil_r. reflexivity.
Qed.

(** C4. When the third-party reader behind an extractor fails (opening the
    document raises, or a PDF page cannot be extracted), the extractor
    returns [None] instead of raising, having only read and reported; and
    [process_uploaded_file], for a file whose extension selects that
    extractor, returns [False] without calling the processor. *)
Theorem extractor_errors_degrade env k file (w : World env) :
  reader_error env k file = true ->
  (exists evs,
      run_extractor env k file w = (Ret None, log w evs)
      /\ forallb is_reading evs = true)
  /\ (lower env (path_suffix (name file)) = reader_extension k ->
      exists w',
        process_uploaded_file env file w = (Ret false, w')
        /\ calls (trace w') = calls (trace w)
        /\ proc w' = proc w).
Proof.
  intros Herr. split.
  - destruct (run_extractor_frame env k file w) as (r & evs & Hrun & Hevs & Hnone).
    rewrite (Hnone Herr) in Hrun. eauto.
  - intros Hk.
    destruct (process_uploaded_file_cases env file w)
      as (b & w' & Hrun & [(text & Hing) | (-> & Hp & Hc)]).
    + exfalso.
      destruct Hing as (extract & w1 & w2 & pr & post & _ & Hext & Hx & _).
      rewrite Hk, extract_by_type_reader in Hext. inversion Hext; subst.
      destruct (run_extractor_frame env k file w1) as (r & evs & Hrun' & _ & Hnone).
      rewrite Hx in Hrun'. inversion Hrun'; subst.
      specialize (Hnone Herr). discriminate.
    + exists w'. auto.
Qed.

(** C8. For an upload whose lower-cased extension is none of [.txt],
    [.docx], [.pdf], [.csv], [process_uploaded_file] returns [False]; all it
    does is try to make the uploads directory and show an error: no reader
    is called, the files are untouched, the processor is not called. *)
Theorem unsupported_extension_is_rejected env file (w : World env) :
  ~ In (lower env (path_suffix (name file))) supported_extensions ->
  exists w' evs,
    process_uploaded_file env file w = (Ret false, w')
    /\ files (fs w') = files (fs w)
    /\ proc w' = proc w
    /\ trace w' = trace w ++ evs
    /\ forallb is_housekeeping evs = true
    /\ calls (trace w') = calls (trace w).
Proof.
  intros Hext. apply (extract_by_type_unsupported env _ file) in Hext.
  unfold process_uploaded_file, process_uploaded_file_body.
  unfold try_except at 1. unfold bind at 1.
  rewrite os_makedirs_run, Hext.
  destruct (os_fault env SysMakedirs (fs w)) as [e|];
    [|destruct (bool_decide _)]; monad_unfold; simpl;
    eexists _, _; (split; [reflexivity|]); simpl;
    rewrite <- ?app_assoc; repeat split;
    rewrite !calls_app; simpl; rewrite ?app_nil_r; reflexivity.
Qed.

(** ** pathlib: name, stem and suffix *)










(** ** What reaches the processor, and what is on disk by then *)


Lemma ingested_files env file (w : World env) b w' text :
  ingested env file w b w' text ->
  files (fs w') !! processed_path (name file) = Some text
  /\ (forall q, q <> processed_path (name file) ->
                files (fs w') !! q = files (fs w) !! q)
  /\ py "uploads" ∈ dirs (fs w').
Proof.
  intros (extract & w1 & w2 & pr & post & _ & _ & _ & _ & _ & Hfs & _).
  rewrite Hfs. simpl. split; [apply lookup_insert_eq|]. split.
  - intros q Hq. apply lookup_insert_ne. congruence.
  - set_solver.
Qed.



(** ** The CSV extractor *)

Lemma head_rows df :
  (nrows (head 10 df) <= 10)%nat
  /\ nrows (head 10 df) = Nat.min 10 (nrows df)
  /\ map label (columns (head 10 df)) = map label (columns df)
  /\ map cells (columns (head 10 df)) = map (fun c => take 10 (cells c)) (columns df).
Proof.
  unfold head. cbn [nrows columns]. rewrite !map_map. cbn [label cells].
  split; [apply Nat.le_min_l|]. repeat split.
Qed.

Lemma numeric_columns_nonempty df :
  (0 <? length (numeric_columns df))%nat = true
  <-> exists c, In c (columns df) /\ is_number (col_dtype c) = true.
Proof.
  unfold numeric_columns. rewrite length_map, Nat.ltb_lt. split.
  - destruct (List.filter _ (columns df)) as [|c l] eqn:E; simpl; [lia|].
    intros _. exists c.
    apply (filter_In (fun c => is_number (col_dtype c))). rewrite E. left. reflexivity.
  - intros (c & Hc & Hn).
    assert (Hin : In c (List.filter (fun c => is_number (col_dtype c)) (columns df))).
    { apply filter_In. auto. }
    destruct (List.filter _ (columns df)); simpl in *; [tauto | lia].
Qed.

(** C10. For a CSV file that [pandas] parses, [extract_text_from_csv]
    returns, after the one call to the parser, a text made of, in this
    order: the file's name, the column names joined with a comma and a
    space, the number of rows, the rendering of the frame cut to its first
    ten rows, and then the summary statistics of the numeric columns when
    there is at least one such column, and nothing when there is none. *)
Theorem csv_text_layout env file (w : World env) df :
  pd_read_csv env (content file) = Ret df ->
  exists summary,
    extract_text_from_csv env file w =
      (Ret (Some
         (py "CSV Data from " ++ name file ++ py ":" ++ nl ++ nl
          ++ py "Columns: " ++ join (py ", ") (map label (columns df)) ++ nl ++ nl
          ++ py "Total rows: " ++ str_of_nat (nrows df) ++ nl ++ nl
          ++ py "Sample data:" ++ nl
          ++ df_to_string env false (head 10 df)
          ++ summary)),
       log w [PdReadCsv (name file)])
    /\ (nrows (head 10 df) <= 10)%nat
    /\ map cells (columns (head 10 df))
       = map (fun c => take 10 (cells c)) (columns df)
    /\ ((exists c, In c (columns df) /\ is_number (col_dtype c) = true) ->
        summary = nl ++ nl ++ py "Summary Statistics:" ++ nl
                  ++ df_to_string env true
                       (df_describe env (getitem (numeric_columns df) df)))
    /\ (~ (exists c, In c (columns df) /\ is_number (col_dtype c) = true) ->
        summary = []).
Proof.
  intros Hcsv. exists (csv_summary env df).
  rewrite extract_csv_run, Hcsv.
  destruct (head_rows df) as (Hle & _ & _ & Hcells).
  split.
  { unfold csv_text, csv_header. rewrite <- !app_assoc. reflexivity. }
  repeat split; auto.
  - intros Hnum. apply numeric_columns_nonempty in Hnum.
    unfold csv_summary. rewrite Hnum. rewrite <- !app_assoc. reflexivity.
  - intros Hnum. unfold csv_summary.
    destruct (0 <? length (numeric_columns df))%nat eqn:E; [|reflexivity].
    exfalso. apply Hnum. apply numeric_columns_nonempty. exact E.
Qed.

(** ** The upload path on concrete files *)

Lemma blank_text_is_rejected_witness :
  exists w',
    process_uploaded_file demo_env spaces_txt empty_world = (Ret false, w')
    /\ w' = log spaces_w2
              [StError (py "Could not extract text from the file or file is empty")
                       None]
    /\ calls (trace w') = calls (trace empty_world)
    /\ proc w' = proc empty_world
    /\ files (fs w') = files (fs empty_world).
Proof.
  apply (blank_text_is_rejected demo_env spaces_txt empty_world spaces_w1 spaces_w2
           (txt_extract spaces_txt) (Some [32; 10; 160])).
  - vm_compute. reflexivity.
  - vm_compute. reflexivity.
  - vm_compute. reflexivity.
  - right. right. exists [32; 10; 160]. split; reflexivity.
Defined.

Lemma extractor_errors_degrade_witness :
  (exists evs,
      run_extractor demo_env Docx report_docx empty_world
      = (Ret None, log empty_world evs)
      /\ forallb is_reading evs = true)
  /\ (exists w',
        process_uploaded_file demo_env report_docx empty_world = (Ret false, w')
        /\ calls (trace w') = calls (trace empty_world)
        /\ proc w' = proc empty_world).
Proof.
  destruct (extractor_errors_degrade demo_env Docx report_docx empty_world eq_refl)
    as [Hextractor Hupload].
  split; [exact Hextractor|].
  apply Hupload. reflexivity.
Defined.

Lemma unsupported_extension_is_rejected_witness :
  exists w' evs,
    process_uploaded_file demo_env tool_exe empty_world = (Ret false, w')
    /\ files (fs w') = files (fs empty_world)
    /\ proc w' = proc empty_world
    /\ trace w' = trace empty_world ++ evs
    /\ forallb is_housekeeping evs = true
    /\ calls (trace w') = calls (trace empty_world).
Proof.
  apply (unsupported_extension_is_rejected demo_env tool_exe empty_world).
  vm_compute. intros [H|[H|[H|[H|[]]]]]; discriminate H.
Defined.


Lemma csv_text_layout_witness :
  exists summary,
    extract_text_from_csv demo_env people_csv empty_world =
      (Ret (Some
         (py "CSV Data from " ++ name people_csv ++ py ":" ++ nl ++ nl
          ++ py "Columns: " ++ join (py ", ") (map label (columns demo_frame))
          ++ nl ++ nl
          ++ py "Total rows: " ++ str_of_nat (nrows demo_frame) ++ nl ++ nl
          ++ py "Sample data:" ++ nl
          ++ df_to_string demo_env false (head 10 demo_frame)
          ++ summary)),
       log empty_world [PdReadCsv (name people_csv)])
    /\ (nrows (head 10 demo_frame) <= 10)%nat
    /\ map cells (columns (head 10 demo_frame))
       = map (fun c => take 10 (cells c)) (columns demo_frame)
    /\ ((exists c, In c (columns demo_frame) /\ is_number (col_dtype c) = true) ->
        summary = nl ++ nl ++ py "Summary Statistics:" ++ nl
                  ++ df_to_string demo_env true
                       (df_describe demo_env
                          (getitem (numeric_columns demo_frame) demo_frame)))
    /\ (~ (exists c, In c (columns demo_frame) /\ is_number (col_dtype c) = true) ->
        summary = []).
Proof.
  apply (csv_text_layout demo_env people_csv empty_world demo_frame).
  reflexivity.
Defined.


(** ** The core's contract: store, statistics, samples *)

Lemma stats_keys_differ : py "total_documents" <> py "dimension".
Proof. vm_compute. discriminate. Qed.

Lemma stats_total {mdl} (s : VectorStore mdl) :
  stats s !! py "total_documents" = Some (Z.of_nat (length (entries s))).
Proof. unfold stats. apply lookup_insert_eq. Qed.

Lemma stats_dimension {mdl} (s : VectorStore mdl) :
  stats s !! py "dimension" = Some (Z.of_nat (dim s)).
Proof.
  unfold stats. rewrite lookup_insert_ne by exact stats_keys_differ.
  apply lookup_insert_eq.
Qed.

Lemma stats_dom {mdl} (s : VectorStore mdl) :
  dom (stats s) = {[py "total_documents"; py "dimension"]}.
Proof.
  unfold stats. rewrite !dom_insert_L, dom_empty_L. set_solver.
Qed.

Lemma embed_all_passages mdl passages pvs :
  embed_all mdl passages = Ok pvs -> map fst pvs = passages.
Proof.
  revert pvs. induction passages as [|p rest IH]; intros pvs; simpl.
  - intros [= <-]. reflexivity.
  - destruct (embed mdl p) as [v|e]; [|discriminate].
    destruct (embed_all mdl rest) as [vs|e]; [|discriminate].
    intros [= <-]. simpl. rewrite (IH vs eq_refl). reflexivity.
Qed.

Lemma make_chunks_In mdl id pvs c :
  In c (make_chunks mdl id pvs) ->
  document_id c = id /\ In (text c) (map fst pvs).
Proof.
  unfold make_chunks. intros H. apply list_elem_of_In in H.
  apply elem_of_lookup_imap_1 in H as (i & pv & -> & Hpv). simpl.
  split; [reflexivity|].
  apply in_map. apply list_elem_of_In. eapply list_elem_of_lookup_2. exact Hpv.
Qed.

Lemma process_document_dim mdl txt id (s : VectorStore mdl) :
  dim (snd (process_document mdl txt id s)) = dim s.
Proof.
  unfold process_document.
  destruct (blank txt); [reflexivity|].
  destruct (_ <=? _)%nat; [reflexivity|].
  destruct (embed_all mdl _); reflexivity.
Qed.

(** Ingesting a document keeps a property of chunks that holds of the store
    and of every chunk cut from the document. *)
Lemma process_document_keeps mdl (P : Chunk mdl -> Prop) txt id s :
  (forall c, In c (entries s) -> P c) ->
  (forall c, document_id c = id ->
             In (text c) (chunk mdl txt (chunk_size mdl) (overlap mdl)) -> P c) ->
  forall c, In c (entries (snd (process_document mdl txt id s))) -> P c.
Proof.
  intros Hs Hnew c. unfold process_document.
  destruct (blank txt); [apply Hs|].
  destruct (_ <=? _)%nat; [apply Hs|].
  destruct (embed_all mdl _) as [pvs|e] eqn:E; [|apply Hs].
  simpl. rewrite in_app_iff. intros [H|H].
  - apply filter_In in H as [H _]. apply Hs. exact H.
  - apply make_chunks_In in H as [Hid Htxt].
    rewrite (embed_all_passages _ _ _ E) in Htxt. apply Hnew; assumption.
Qed.

Lemma add_samples_from_samples mdl (s : VectorStore mdl) :
  (forall c, In c (entries s) -> from_samples mdl c) ->
  forall c, In c (entries (add_sample_documents mdl s)) -> from_samples mdl c.
Proof.
  unfold add_sample_documents.
  assert (G : forall ds, incl ds (sample_documents mdl) ->
              forall s : VectorStore mdl,
                (forall c, In c (entries s) -> from_samples mdl c) ->
                forall c,
                  In c (entries (fold_left
                          (fun st d => snd (process_document mdl (snd d) (fst d) st))
                          ds s)) ->
                  from_samples mdl c).
  { induction ds as [|d ds IH]; intros Hincl s0 Hs0; simpl; [exact Hs0|].
    apply IH.
    - intros x Hx. apply Hincl. right. exact Hx.
    - apply process_document_keeps; [exact Hs0|].
      intros c Hid Htxt. exists d. split; [apply Hincl; left; reflexivity|]. auto. }
  apply G. apply incl_refl.
Qed.

Lemma reprocess_docs_returns mdl (s0 : VectorStore mdl) :
  exists line, reprocess_docs mdl s0 = (Ret line, add_sample_documents mdl (clear s0)).
Proof.
  unfold reprocess_docs, clear_all_documents, get_vector_store_stats, dict_get.
  rewrite stats_total. eauto.
Qed.

(** C6. After [clear_all_documents()] the statistics report
    [total_documents == 0] and the same dimension; so the reprocessing
    script ends by printing the number of chunks that ingesting the built-in
    samples into an empty store produces: that number and the final store do
    not depend on what the store held when the script started, and every
    chunk in the final store comes from a sample document. *)
Theorem clear_then_stats_is_zero mdl (s0 : VectorStore mdl) :
  get_vector_store_stats (clear_all_documents s0) !! py "total_documents"
    = Some 0%Z
  /\ get_vector_store_stats (clear_all_documents s0) !! py "dimension"
    = Some (Z.of_nat (dim s0))
  /\ let final := add_sample_documents mdl (mkStore [] (dim s0)) in
     reprocess_docs mdl s0
       = (Ret (success_line (Z.of_nat (length (entries final)))), final)
     /\ forall c, In c (entries final) -> from_samples mdl c.
Proof.
  split; [apply (stats_total (clear s0))|].
  split; [apply (stats_dimension (clear s0))|].
  intros final. split.
  - unfold reprocess_docs, clear_all_documents, clear, get_vector_store_stats,
      dict_get. fold final. rewrite stats_total. reflexivity.
  - apply add_samples_from_samples. simpl. tauto.
Qed.

(** C7. For every state of the store, [get_vector_store_stats()] returns a
    dictionary whose keys are exactly [total_documents] and [dimension];
    the first is the number of chunks the store holds at that moment (so
    also right after an insertion), the second its dimension.  Hence the
    "Refresh Stats" handler of the front end shows both metrics and does
    not end in a [KeyError], and the script's lookup succeeds. *)
Theorem stats_snapshot_has_both_keys mdl (s : VectorStore mdl) :
  dom (get_vector_store_stats s) = {[py "total_documents"; py "dimension"]}
  /\ get_vector_store_stats s !! py "total_documents"
     = Some (Z.of_nat (length (entries s)))
  /\ get_vector_store_stats s !! py "dimension" = Some (Z.of_nat (dim s))
  /\ (forall chunks,
         get_vector_store_stats (vs_insert chunks s) !! py "total_documents"
         = Some (Z.of_nat (length (entries s) + length chunks)))
  /\ (forall env (view : proc_state env -> VectorStore mdl) (w : World env),
         view (proc w) = s ->
         exists r w' post,
           on_refresh_stats env (engine_stats env mdl view) w = (r, w')
           /\ trace w' = trace w
                ++ [StMetric (py "Total Documents") (Z.of_nat (length (entries s)));
                    StMetric (py "Vector Dimension") (Z.of_nat (dim s))]
                ++ post
           /\ forall k, r <> Raise (KeyError k))
  /\ (exists line final, reprocess_docs mdl s = (Ret line, final)).
Proof.
  split; [apply stats_dom|]. split; [apply stats_total|].
  split; [apply stats_dimension|]. split.
  { intros chunks. unfold get_vector_store_stats. rewrite stats_total.
    simpl. rewrite length_app. reflexivity. }
  split.
  - intros env view w Hview.
    unfold on_refresh_stats, engine_stats, get_vector_store_stats, dict_get.
    unfold bind at 1. rewrite Hview.
    unfold lift, bind at 1. rewrite stats_total.
    unfold bind at 1. unfold st_metric, emit at 1.
    unfold bind at 1. rewrite stats_dimension.
    unfold bind at 1. unfold emit at 1.
    unfold bind at 1. unfold get_fs at 1. cbn [fs proc trace].
    unfold bind at 1.
    destruct (os_path_exists _ _).
    + unfold os_listdir. monad_unfold. simpl.
      destruct (bool_decide (py "uploads" ∈ dirs (fs w)));
        [|destruct (bool_decide (py "uploads" ∈ dom (files (fs w))))];
        eexists _, _, _; (split; [reflexivity|]); simpl;
        (split; [rewrite <- ?app_assoc; simpl; try reflexivity
                | intros k; discriminate]).
    + monad_unfold. simpl.
      eexists _, _, _; (split; [reflexivity|]); simpl.
      split; [rewrite <- ?app_assoc; reflexivity | intros k; discriminate].
  - destruct (reprocess_docs_returns mdl s) as [line H]. eauto.
Qed.

(** ** The query engine's contract *)




(** ** Worked examples *)

Example strip_example :
  strip (py "  hello world	 ") = py "hello world".
Proof. reflexivity. Qed.

Example suffix_example :
  path_suffix (py "Q3.Report.PDF") = py ".PDF"
  /\ path_stem (py "Q3.Report.PDF") = py "Q3.Report"
  /\ path_suffix (py ".bashrc") = []
  /\ path_stem (py "dir/notes.txt") = py "notes"
  /\ path_suffix (py "trailing.") = [].
Proof. repeat split; reflexivity. Qed.

Example str_of_nat_example : str_of_nat 0 = py "0" /\ str_of_nat 1204 = py "1204".
Proof. split; reflexivity. Qed.

Example utf8_example :
  utf8_decode [104; 105; 194; 160; 226; 130; 172] = Some [104; 105; 160; 8364]
  /\ utf8_decode [192; 128] = None
  /\ utf8_decode [237; 160; 128] = None.
Proof. repeat split; reflexivity. Qed.

Example lower_example :
  lower demo_env (path_suffix (py "Q3.Report.PDF")) = py ".pdf"
  /\ lower demo_env (path_suffix (py "archive.tar.GZ")) = py ".gz".
Proof. split; reflexivity. Qed.

(** A second upload under the same name replaces the persisted text. *)
Example reupload_example :
  files (fs hi_final) !! py "uploads/a.txt_processed.txt" = Some (py "hi")
  /\ files (fs (snd (process_uploaded_file demo_env yo_txt hi_final)))
       !! py "uploads/a.txt_processed.txt" = Some (py "yo").
Proof. split; vm_compute; reflexivity. Qed.

(** A PDF with a page that cannot be extracted is refused as a whole. *)
Example pdf_example :
  fst (process_uploaded_file demo_env
         {| name := py "scan.pdf"; content := [] |} empty_world) = Ret false.
Proof. vm_compute. reflexivity. Qed.

(** The script on a store that still holds two chunks of an old document:
    both built-in samples are ingested, the old chunks are not counted. *)
Example reprocess_docs_example :
  fst (reprocess_docs demo_models stale_store)
  = Ret ([9989; 32] ++ py "Success! Processed 2 document chunks")
  /\ map document_id (entries (snd (reprocess_docs demo_models stale_store)))
     = [py "hr-policy"; py "it-support"].
Proof. split; vm_compute; reflexivity. Qed.

(** Asking with the generative model out of reach: the template answer,
    flagged as a fallback; with an empty store: the fixed answer. *)
Example ask_question_example :
  ask_question demo_models (py "How many vacation days do I get?") true after_samples
  = Ok {| answer_text :=
            py "Based on the documents: Contact the help desk for IT issues."
            ++ nl ++ py "Employees receive 15 vacation days per year.";
          answer_status := Fallback ModelUnavailable |}
  /\ ask_question demo_models (py "How many vacation days do I get?") false
       (mkStore [] 1)
     = Ok {| answer_text := no_information_answer; answer_status := Degraded None |}.
Proof. split; vm_compute; reflexivity. Qed.

(* ===================================================================== *)
(** * Part 7. More about the upload path                                  *)
(* ===================================================================== *)

(** ** The codec and the paths it feeds *)


Lemma rfind_opt_not_In c (s : pystr) : ~ In c s -> rfind_opt c s = None.
Proof.
  induction s as [|x r IH]; simpl; [reflexivity|].
  intros H. rewrite IH by tauto.
  destruct (N.eqb_spec x c) as [->|]; [tauto | reflexivity].
Qed.

Lemma rfind_opt_app c (a b : pystr) :
  rfind_opt c (a ++ b) =
  match rfind_opt c b with
  | Some i => Some (length a + i)%nat
  | None => rfind_opt c a
  end.
Proof.
  induction a as [|x r IH]; simpl.
  - destruct (rfind_opt c b); reflexivity.
  - rewrite IH. destruct (rfind_opt c b); [reflexivity|].
    destruct (rfind_opt c r); reflexivity.
Qed.

(** The processed file of a plain file name lives directly in [uploads]. *)
Lemma parent_processed_path (file_name : pystr) :
  ~ In slash file_name ->
  parent (processed_path file_name) = Some (py "uploads").
Proof.
  intros H. unfold parent, processed_path.
  rewrite rfind_opt_app, rfind_opt_app.
  rewrite (rfind_opt_not_In _ _ H). reflexivity.
Qed.


Lemma processed_path_not_uploads (file_name : pystr) :
  processed_path file_name <> py "uploads".
Proof.
  intros H. apply (f_equal (@length N)) in H.
  unfold processed_path in H. rewrite !length_app in H. simpl in H. lia.
Qed.

(** ** Following a run step by step *)

Lemma made_uploads_run env (w : World env) :
  os_fault env SysMakedirs (fs w) = None ->
  py "uploads" ∉ dom (files (fs w)) ->
  os_makedirs env (py "uploads") w = (Ret tt, made_uploads w).
Proof.
  intros Hf Hd. rewrite os_makedirs_run, Hf.
  rewrite bool_decide_eq_false_2 by exact Hd. reflexivity.
Qed.

(** Once the directory is made and the extractor has returned, the run is
    [after_extraction] under the outer [except]. *)
Lemma process_uploaded_file_after env file (w w1 w2 : World env) extract text_content :
  os_makedirs env (py "uploads") w = (Ret tt, w1) ->
  extract_by_type env (lower env (path_suffix (name file))) file = Some extract ->
  extract w1 = (Ret text_content, w2) ->
  process_uploaded_file env file w =
  match after_extraction env file text_content w2 with
  | (Ret b, w') => (Ret b, w')
  | (Raise e, w') =>
      (Ret false, log w' [StError (py "Error processing file: ") (Some e)])
  end.
Proof.
  intros Hmk Hext Hx.
  unfold process_uploaded_file, process_uploaded_file_body.
  unfold try_except at 1. unfold bind at 1. rewrite Hmk, Hext.
  unfold bind at 1. rewrite Hx.
  destruct (after_extraction env file text_content w2) as [[b|e] w']; reflexivity.
Qed.

(** When the extractor itself raises, the outer [except] reports it. *)
Lemma process_uploaded_file_extract_raises env file (w w1 w2 : World env) extract e :
  os_makedirs env (py "uploads") w = (Ret tt, w1) ->
  extract_by_type env (lower env (path_suffix (name file))) file = Some extract ->
  extract w1 = (Raise e, w2) ->
  process_uploaded_file env file w =
  (Ret false, log w2 [StError (py "Error processing file: ") (Some e)]).
Proof.
  intros Hmk Hext Hx.
  unfold process_uploaded_file, process_uploaded_file_body.
  unfold try_except at 1. unfold bind at 1. rewrite Hmk, Hext.
  unfold bind at 1. rewrite Hx. reflexivity.
Qed.

(** When the directory cannot be made, nothing else is attempted. *)
Lemma process_uploaded_file_no_directory env file (w w1 : World env) e :
  os_makedirs env (py "uploads") w = (Raise e, w1) ->
  process_uploaded_file env file w =
  (Ret false, log w1 [StError (py "Error processing file: ") (Some e)]).
Proof.
  intros Hmk.
  unfold process_uploaded_file, process_uploaded_file_body.
  unfold try_except at 1. unfold bind at 1. rewrite Hmk. reflexivity.
Qed.

Lemma os_makedirs_frame env path (w : World env) r w1 :
  os_makedirs env path w = (r, w1) ->
  files (fs w1) = files (fs w) /\ proc w1 = proc w
  /\ trace w1 = trace w ++ [OsMakedirs path]
  /\ (r = Ret tt -> dirs (fs w1) = {[path]} ∪ dirs (fs w)).
Proof.
  rewrite os_makedirs_run.
  destruct (os_fault env SysMakedirs (fs w));
    [|destruct (bool_decide _)]; intros [= <- <-]; simpl;
    repeat split; discriminate.
Qed.



(** ** When an upload goes through *)




(** ** When an upload is turned away *)

(** X3. A [.txt] upload whose bytes are not valid UTF-8 is turned away with
    the "Error processing file" message: the value is [False], no file is
    created, emptied or written, and the processor is not called.  If the
    directory could be made, the error reported is the decoding error. *)
Theorem undecodable_text_file_is_rejected env file (w : World env) :
  lower env (path_suffix (name file)) = py ".txt" ->
  utf8_decode (map Byte.to_N (content file)) = None ->
  exists w' e,
    process_uploaded_file env file w = (Ret false, w')
    /\ files (fs w') = files (fs w)
    /\ proc w' = proc w
    /\ calls (trace w') = calls (trace w)
    /\ last (trace w') = Some (StError (py "Error processing file: ") (Some e))
    /\ (forall w1, os_makedirs env (py "uploads") w = (Ret tt, w1) ->
                   e = UnicodeDecodeError).
Proof.
  intros Hext Hdec.
  destruct (os_makedirs env (py "uploads") w) as [[[]|e] w1] eqn:Hmk;
    destruct (os_makedirs_frame env _ w _ _ Hmk) as (Hfiles & Hproc & Htr & _).
  - assert (Hsel : extract_by_type env (lower env (path_suffix (name file))) file
                   = Some (let* t := read_utf8 env file in ret (Some t))).
    { rewrite Hext. reflexivity. }
    rewrite (process_uploaded_file_extract_raises env file w w1
               (log w1 [UploadRead (name file)]) _ UnicodeDecodeError Hmk Hsel).
    2:{ unfold read_utf8. monad_unfold. simpl. rewrite Hdec. reflexivity. }
    eexists _, UnicodeDecodeError. split; [reflexivity|]. simpl.
    repeat split; auto.
    + rewrite Htr, !calls_app. simpl. rewrite !app_nil_r. reflexivity.
    + apply last_snoc.
  - rewrite (process_uploaded_file_no_directory env file w w1 e Hmk).
    eexists _, e. split; [reflexivity|]. simpl.
    split; [exact Hfiles|]. split; [exact Hproc|]. split.
    { rewrite Htr, !calls_app. simpl. rewrite !app_nil_r. reflexivity. }
    split; [apply last_snoc|]. discriminate.
Qed.

(** X4. When the extracted text cannot be encoded (it holds a lone
    surrogate), the processed file has already been opened for writing: the
    run returns [False] with the "Error processing file" message and no call
    to the processor, and leaves the processed file empty, whatever an
    earlier upload of that name had stored in it. *)
Theorem failed_write_leaves_an_empty_file env file (w w2 : World env) extract text :
  (forall c f, os_fault env c f = None) ->
  py "uploads" ∉ dom (files (fs w)) ->
  processed_path (name file) ∉ dirs (fs w) ->
  ~ In slash (name file) ->
  extract_by_type env (lower env (path_suffix (name file))) file = Some extract ->
  extract (made_uploads w) = (Ret (Some text), w2) ->
  blank text = false ->
  utf8_encodable text = false ->
  exists w',
    process_uploaded_file env file w = (Ret false, w')
    /\ files (fs w') = <[processed_path (name file) := []]> (files (fs w))
    /\ proc w' = proc w
    /\ calls (trace w') = calls (trace w)
    /\ last (trace w')
       = Some (StError (py "Error processing file: ") (Some UnicodeEncodeError)).
Proof.
  intros Hf Hup Hnd Hsl Hext Hx Hbl Henc.
  pose proof (made_uploads_run env w (Hf _ _) Hup) as Hmk.
  destruct (extract_by_type_frame env _ file extract (made_uploads w) Hext)
    as (r & evs & Hrun & Hevs).
  rewrite Hx in Hrun. inversion Hrun as [[Hr Hw2]]. clear Hrun Hr. subst w2.
  rewrite (process_uploaded_file_after env file w _ _ extract _ Hmk Hext Hx).
  assert (Hno : no_text (Some text) = false) by (rewrite no_text_Some; exact Hbl).
  unfold after_extraction. rewrite Hno.
  unfold open_w, file_write, call_process_text_file. monad_unfold. simpl.
  rewrite !Hf.
  rewrite bool_decide_eq_false_2.
  2:{ pose proof (processed_path_not_uploads (name file)). set_solver. }
  rewrite (parent_processed_path _ Hsl).
  rewrite bool_decide_eq_true_2 by set_solver. simpl. rewrite Hf, Henc. simpl.
  eexists. split; [reflexivity|]. simpl. repeat split.
  - rewrite !calls_app, (calls_reading evs Hevs). simpl.
    rewrite !app_nil_r. reflexivity.
  - apply last_snoc.
Qed.




(** ** Names, ids and processed paths *)




(** ** Documents with nothing in them *)

Lemma blank_app (a b : pystr) : blank (a ++ b) = blank a && blank b.
Proof. apply forallb_app. Qed.

Lemma docx_loop_blank paragraphs text :
  blank (docx_loop paragraphs text) = blank text && forallb blank paragraphs.
Proof.
  revert text. induction paragraphs as [|p rest IH]; intros text; simpl.
  - rewrite andb_true_r. reflexivity.
  - rewrite IH, !blank_app. simpl. rewrite andb_true_r, andb_assoc. reflexivity.
Qed.

Lemma pdf_fold_blank pages text :
  forallb blank_page pages = true ->
  exists t, pdf_fold pages text = Ret t /\ blank t = blank text.
Proof.
  revert text. induction pages as [|[t|e] rest IH]; intros text; simpl.
  - eauto.
  - intros H. apply andb_prop in H as [Ht Hr].
    destruct (IH (text ++ t ++ nl) Hr) as (t' & Hf & Hb).
    exists t'. split; [exact Hf|].
    rewrite Hb, !blank_app, Ht. simpl. rewrite andb_true_r. reflexivity.
  - discriminate.
Qed.

(** A run whose extractor can only come back with no usable text returns
    [False] and leaves files and processor alone. *)
Lemma rejected_run env file (w : World env) extract :
  extract_by_type env (lower env (path_suffix (name file))) file = Some extract ->
  (forall w1 text_content w2,
      extract w1 = (Ret text_content, w2) -> no_text text_content = true) ->
  exists w',
    process_uploaded_file env file w = (Ret false, w')
    /\ files (fs w') = files (fs w)
    /\ proc w' = proc w
    /\ calls (trace w') = calls (trace w).
Proof.
  intros Hext Hno.
  destruct (os_makedirs env (py "uploads") w) as [[[]|e] w1] eqn:Hmk;
    destruct (os_makedirs_frame env _ w _ _ Hmk) as (Hfiles & Hproc & Htr & _).
  2:{ rewrite (process_uploaded_file_no_directory env file w w1 e Hmk).
      eexists. split; [reflexivity|]. simpl.
      split; [exact Hfiles|]. split; [exact Hproc|].
      rewrite Htr, !calls_app. simpl. rewrite !app_nil_r. reflexivity. }
  destruct (extract_by_type_frame env _ file extract w1 Hext)
    as (r & evs & Hrun & Hevs).
  assert (Hc : calls (trace (log w1 evs)) = calls (trace w)).
  { simpl. rewrite Htr, !calls_app, (calls_reading evs Hevs). simpl.
    rewrite !app_nil_r. reflexivity. }
  destruct r as [tc|e].
  - rewrite (process_uploaded_file_after env file w w1 _ extract tc Hmk Hext Hrun).
    rewrite (after_extraction_rejects env file tc _ (Hno _ _ _ Hrun)).
    eexists. split; [reflexivity|]. simpl.
    split; [exact Hfiles|]. split; [exact Hproc|].
    rewrite calls_app. simpl. rewrite app_nil_r. exact Hc.
  - rewrite (process_uploaded_file_extract_raises env file w w1 _ _ e Hmk Hext Hrun).
    eexists. split; [reflexivity|]. simpl.
    split; [exact Hfiles|]. split; [exact Hproc|].
    rewrite calls_app. simpl. rewrite app_nil_r. exact Hc.
Qed.

(** X7. A Word document without paragraphs, or whose paragraphs are all
    blank, yields a text of line ends and white space only; the upload is
    turned away: [False], no file touched, no call to the processor. *)
Theorem docx_without_text_is_rejected env file (w : World env) paragraphs :
  lower env (path_suffix (name file)) = py ".docx" ->
  docx_Document env (content file) = Ret paragraphs ->
  forallb blank paragraphs = true ->
  extract_text_from_docx env file w
  = (Ret (Some (docx_loop paragraphs [])), log w [DocxDocument (name file)])
  /\ blank (docx_loop paragraphs []) = true
  /\ exists w',
       process_uploaded_file env file w = (Ret false, w')
       /\ files (fs w') = files (fs w)
       /\ proc w' = proc w
       /\ calls (trace w') = calls (trace w).
Proof.
  intros Hext Hdoc Hblank.
  assert (Hb : blank (docx_loop paragraphs []) = true).
  { rewrite docx_loop_blank, Hblank. reflexivity. }
  split; [rewrite extract_docx_run, Hdoc; reflexivity|]. split; [exact Hb|].
  apply (rejected_run env file w (extract_text_from_docx env file)).
  - rewrite Hext. reflexivity.
  - intros w1 tc w2. rewrite extract_docx_run, Hdoc. intros [= <- _].
    rewrite no_text_Some. exact Hb.
Qed.

(** X8. A PDF all of whose pages extract to blank text (a scan without a
    text layer) is turned away in the same way. *)
Theorem pdf_without_text_is_rejected env file (w : World env) pages :
  lower env (path_suffix (name file)) = py ".pdf" ->
  pdf_PdfReader env (content file) = Ret pages ->
  forallb blank_page pages = true ->
  exists text w',
    extract_text_from_pdf env file w
    = (Ret (Some text), log w [PdfReader (name file)])
    /\ blank text = true
    /\ process_uploaded_file env file w = (Ret false, w')
    /\ files (fs w') = files (fs w)
    /\ proc w' = proc w
    /\ calls (trace w') = calls (trace w).
Proof.
  intros Hext Hpdf Hblank.
  destruct (pdf_fold_blank pages [] Hblank) as (text & Hfold & Hb). simpl in Hb.
  destruct (rejected_run env file w (extract_text_from_pdf env file))
    as (w' & Hrun & Hrest).
  - rewrite Hext. reflexivity.
  - intros w1 tc w2. rewrite extract_pdf_run, Hpdf, Hfold. intros [= <- _].
    rewrite no_text_Some. exact Hb.
  - exists text, w'. split; [rewrite extract_pdf_run, Hpdf, Hfold; reflexivity|].
    split; [exact Hb|]. split; [exact Hrun|]. exact Hrest.
Qed.

(** ** The "Refresh Stats" handler *)




Lemma processed_file_is_listed (f : FS) (file_name : pystr) :
  ~ In slash file_name ->
  is_Some (files f !! processed_path file_name) ->
  In (processed_path file_name) (uploads_entries f).
Proof.
  intros Hsl Hfile. unfold uploads_entries. apply filter_In. split.
  - apply list_elem_of_In, elem_of_elements, elem_of_union. left.
    apply elem_of_dom. exact Hfile.
  - apply bool_decide_eq_true_2. apply parent_processed_path. exact Hsl.
Qed.


(* ===================================================================== *)
(** * Part 8. The page                                                    *)
(* ===================================================================== *)

(** ** "Process All Files" *)

Lemma page_calls_app (a b : list PageEvent) :
  page_calls (a ++ b) = page_calls a ++ page_calls b.
Proof. unfold page_calls. rewrite omap_app. apply calls_app. Qed.

Lemma page_calls_Ran (t : list Event) : page_calls (map Ran t) = calls t.
Proof.
  unfold page_calls. f_equal.
  induction t as [|ev r IH]; [reflexivity|].
  change (omap low_event (map Ran (ev :: r)))
    with (ev :: omap low_event (map Ran r)).
  rewrite IH. reflexivity.
Qed.

(** One file of the loop: the upload path returns, and a success means a
    call was made. *)
Lemma run_upload_step env file (s : Page env) :
  exists b w',
    process_uploaded_file env file (mkWorld (pfs s) (pproc s) []) = (Ret b, w')
    /\ (length (calls (trace w')) <= 1)%nat
    /\ (b = true -> length (calls (trace w')) = 1%nat).
Proof.
  destruct (process_uploaded_file_cases env file (mkWorld (pfs s) (pproc s) []))
    as (b & w' & Hrun & [(text & Hing) | (Hb & _ & Hc)]); exists b, w'.
  - split; [exact Hrun|].
    rewrite (ingested_calls _ _ _ _ _ _ Hing). simpl. auto.
  - split; [exact Hrun|]. rewrite Hc, Hb. simpl. split; [lia|discriminate].
Qed.

Lemma process_files_loop_run env files :
  forall total i count (s : Page env),
    (i + length files <= total)%nat ->
    exists n s' evs,
      process_files_loop env total i files count s = (Ret n, s')
      /\ shown s' = shown s ++ evs
      /\ (count <= n)%nat
      /\ (n - count <= length (page_calls evs))%nat
      /\ (length (page_calls evs) <= length files)%nat
      /\ Forall (progress_in_range total) evs.
Proof.
  induction files as [|file rest IH]; intros total i count s Hi.
  - exists count, s, []. simpl. rewrite app_nil_r.
    repeat split; auto; lia.
  - cbn [process_files_loop]. unfold pbind at 1. unfold show at 1.
    unfold pbind at 1. unfold run_low at 1. cbn [pfs pproc shown].
    destruct (run_upload_step env file s) as (b & w' & Hrun & Hle & Hone).
    rewrite Hrun. unfold pbind at 1. unfold show at 1. cbn [pfs pproc shown].
    simpl in Hi.
    destruct (IH total (i + 1)%nat (if b then (count + 1)%nat else count)
                {| pfs := fs w'; pproc := proc w';
                   shown := ((shown s
                              ++ [StWrite (py "Processing: " ++ name file ++ py "...")])
                             ++ map Ran (trace w'))
                            ++ [StProgress (i + 1) total] |})
      as (n & s' & evs & Hloop & Hshown & Hcount & Hcalls & Hlen & Hprog);
      [lia|].
    exists n, s',
      ([StWrite (py "Processing: " ++ name file ++ py "...")]
       ++ map Ran (trace w') ++ [StProgress (i + 1) total] ++ evs).
    split; [exact Hloop|]. split.
    { rewrite Hshown. cbn [shown]. rewrite <- !app_assoc. reflexivity. }
    rewrite !page_calls_app, page_calls_Ran, !length_app. simpl.
    split; [destruct b; lia|]. split.
    { destruct b; [rewrite (Hone eq_refl)|]; lia. }
    split; [lia|].
    constructor; [exact I|]. apply Forall_app. split.
    { apply Forall_forall. intros ev Hev. apply list_elem_of_In, in_map_iff in Hev.
      destruct Hev as (x & <- & _). exact I. }
    constructor; [|exact Hprog]. simpl. split; [reflexivity|lia].
Qed.

(** X11. "Process All Files" never raises.  The number of successes it
    announces is at most the number of calls made to the processor during
    the loop, which is at most the number of files; every progress value
    shown is [done/total] with [total] the number of files and
    [1 <= done <= total], so within the range the progress bar accepts. *)
Theorem process_all_files_counts env (uploaded_files : list UploadedFile)
    (s : Page env) :
  exists success_count s' evs,
    process_all_files env uploaded_files s = (Ret tt, s')
    /\ shown s' = shown s ++ [StProgressStart] ++ evs
         ++ [Ran (StSuccess ([9989; 32] ++ py "Successfully processed "
                             ++ str_of_nat success_count ++ py "/"
                             ++ str_of_nat (length uploaded_files)
                             ++ py " files!"))]
    /\ (success_count <= length (page_calls evs))%nat
    /\ (length (page_calls evs) <= length uploaded_files)%nat
    /\ Forall (progress_in_range (length uploaded_files)) evs.
Proof.
  unfold process_all_files. unfold pbind at 1. unfold show at 1.
  unfold pbind at 1.
  destruct (process_files_loop_run env uploaded_files (length uploaded_files) 0 0
              {| pfs := pfs s; pproc := pproc s;
                 shown := shown s ++ [StProgressStart] |})
    as (n & s' & evs & Hloop & Hshown & _ & Hcalls & Hlen & Hprog); [simpl; lia|].
  rewrite Hloop. unfold run_low, st_success, emit. cbn [fs proc trace].
  exists n. eexists. exists evs. split; [reflexivity|]. cbn [shown].
  split.
  { rewrite Hshown. cbn [shown]. simpl. rewrite <- !app_assoc. reflexivity. }
  split; [lia|]. split; assumption.
Qed.

(** ** The icons of the selected files *)

(** X12. The icon table and the upload path agree on what a known file type
    is: an extension has an entry in [file_type_icons] exactly when
    [process_uploaded_file] has an extractor for it, and no entry is the
    folder icon.  So the folder icon marks exactly the files that will be
    refused as unsupported. *)
Theorem icons_match_supported_types env (file : UploadedFile) :
  let ext := lower env (path_suffix (name file)) in
  (file_type_icons !! ext = None <-> extract_by_type env ext file = None)
  /\ (default folder_icon (file_type_icons !! ext) = folder_icon
      <-> ~ In ext supported_extensions).
Proof.
  intros ext.
  assert (Hicons : forall e : pystr,
             (In e supported_extensions -> exists icon,
                 file_type_icons !! e = Some icon /\ icon <> folder_icon)
             /\ (~ In e supported_extensions -> file_type_icons !! e = None)).
  { intros e. unfold file_type_icons, supported_extensions. split.
    - simpl. intros [<-|[<-|[<-|[<-|[]]]]]; eexists;
        (split; [vm_compute; reflexivity | discriminate]).
    - intros Hn. simpl in Hn.
      rewrite !lookup_insert_ne by (intros <-; tauto). apply lookup_empty. }
  assert (Hdec : In ext supported_extensions \/ ~ In ext supported_extensions).
  { destruct (decide (ext ∈ supported_extensions)) as [H|H]; [left|right];
      rewrite <- list_elem_of_In; exact H. }
  split.
  - destruct Hdec as [Hin|Hout].
    + destruct (proj1 (Hicons ext) Hin) as (icon & Hi & _). rewrite Hi.
      split; [discriminate|]. intros Hx. exfalso.
      revert Hx Hin. unfold extract_by_type, str_eqb, supported_extensions.
      generalize ext. intros e.
      repeat case_bool_decide; try discriminate.
      intros _ [?|[?|[?|[?|[]]]]]; congruence.
    + rewrite (proj2 (Hicons ext) Hout), (extract_by_type_unsupported _ _ _ Hout).
      tauto.
  - destruct Hdec as [Hin|Hout].
    + destruct (proj1 (Hicons ext) Hin) as (icon & Hi & Hne). rewrite Hi.
      split; [intros E; destruct (Hne E) | intros H; destruct (H Hin)].
    + rewrite (proj2 (Hicons ext) Hout).
      split; [intros _; exact Hout | intros _; reflexivity].
Qed.

(** ** show_document_manager *)

Lemma os_remove_run env rf path (s : Page env) :
  os_remove env rf path s =
  match rf (pfs s) path with
  | Some e => (Raise e, mkPage (pfs s) (pproc s) (shown s ++ [OsRemove path]))
  | None =>
      if bool_decide (path ∈ dom (files (pfs s)))
      then (Ret tt, mkPage {| dirs := dirs (pfs s);
                              files := delete path (files (pfs s)) |}
                           (pproc s) (shown s ++ [OsRemove path]))
      else if bool_decide (path ∈ dirs (pfs s))
           then (Raise IsADirectoryError,
                 mkPage (pfs s) (pproc s) (shown s ++ [OsRemove path]))
           else (Raise FileNotFoundError,
                 mkPage (pfs s) (pproc s) (shown s ++ [OsRemove path]))
  end.
Proof.
  unfold os_remove, pbind, show. cbn [pfs pproc shown].
  destruct (rf (pfs s) path); [reflexivity|].
  repeat case_bool_decide; reflexivity.
Qed.

Ltac files_as_before :=
  eexists _, _; split; [reflexivity|]; cbn [pfs pproc shown];
  split; [reflexivity|]; split; [reflexivity|];
  left; split; [reflexivity|discriminate].

(** The loop removes at most one file: one it listed and whose button was
    clicked; it asks for a rerun exactly when it removed one. *)
Lemma manager_loop_run env rf clicked names :
  forall s : Page env,
    exists r s',
      manager_loop env rf clicked names s = (r, s')
      /\ dirs (pfs s') = dirs (pfs s)
      /\ pproc s' = pproc s
      /\ ((files (pfs s') = files (pfs s) /\ r <> Ret true)
          \/ (exists n,
                 In n names
                 /\ clicked (py "delete_" ++ n) = true
                 /\ py "uploads/" ++ n ∈ dom (files (pfs s))
                 /\ files (pfs s') = delete (py "uploads/" ++ n) (files (pfs s))
                 /\ r = Ret true)).
Proof.
  induction names as [|n rest IH]; intros s.
  - cbn [manager_loop]. unfold pret. files_as_before.
  - cbn [manager_loop]. unfold pbind at 1. unfold show at 1.
    destruct (clicked (py "delete_" ++ n)) eqn:Hclick.
    + unfold pbind at 1. rewrite os_remove_run. cbn [pfs pproc shown].
      destruct (rf (pfs s) (py "uploads/" ++ n)) as [e|]; [files_as_before|].
      case_bool_decide as Hfile.
      { unfold pbind, run_low, st_success, emit, pret.
        cbn [pfs pproc shown fs proc trace].
        eexists _, _. split; [reflexivity|]. cbn [pfs pproc shown dirs files].
        split; [reflexivity|]. split; [reflexivity|].
        right. exists n.
        split; [left; reflexivity|]. split; [exact Hclick|].
        split; [exact Hfile|]. split; reflexivity. }
      case_bool_decide; files_as_before.
    + destruct (IH (mkPage (pfs s) (pproc s)
                           (shown s ++ [StWrite ([128196; 32] ++ n)])))
        as (r & s' & Hrun & Hd & Hp & Hcases).
      exists r, s'. split; [exact Hrun|]. cbn [pfs pproc] in *.
      split; [exact Hd|]. split; [exact Hp|].
      destruct Hcases as [Hsame | (m & Hin & Hrest)]; [left; exact Hsame|].
      right. exists m. split; [right; exact Hin | exact Hrest].
Qed.

(** X13. One run of the document manager removes at most one file, and
    only a file it listed under [uploads] whose delete button was clicked;
    it ends by asking for a rerun exactly in that case.  In every other
    case (no click, the operating system refusing, the entry being a
    directory, [uploads] being a regular file) the files are what they
    were.  Directories and the processor are never touched. *)
Theorem document_manager_removes_at_most_one env rf clicked (s : Page env) :
  exists r s',
    show_document_manager env rf clicked s = (r, s')
    /\ dirs (pfs s') = dirs (pfs s)
    /\ pproc s' = pproc s
    /\ ((files (pfs s') = files (pfs s) /\ r <> Ret true)
        \/ (exists n,
               In n (listdir_names (pfs s))
               /\ clicked (py "delete_" ++ n) = true
               /\ py "uploads/" ++ n ∈ dom (files (pfs s))
               /\ files (pfs s') = delete (py "uploads/" ++ n) (files (pfs s))
               /\ r = Ret true)).
Proof.
  unfold show_document_manager. unfold pbind at 1. unfold show at 1.
  cbn [pfs pproc shown].
  destruct (os_path_exists (pfs s) (py "uploads")); [|files_as_before].
  unfold pbind at 1. cbn [pfs pproc shown].
  case_bool_decide; [|files_as_before].
  destruct (listdir_names (pfs s)) as [|n rest] eqn:Hnames;
    [unfold pret; files_as_before|].
  unfold pbind at 1. unfold show at 1. cbn [pfs pproc shown].
  destruct (manager_loop_run env rf clicked (n :: rest)
              (mkPage (pfs s) (pproc s)
                 ((shown s ++ [StSubheader ([128203; 32] ++ py "Document Database")])
                  ++ [StWrite (py "**Uploaded Documents:**")])))
    as (r & s' & Hrun & Hrest).
  exists r, s'. split; [exact Hrun|]. exact Hrest.
Qed.

(** With a single button clicked, for a listed regular file, and nothing
    objecting, that file is the one removed. *)
Lemma manager_loop_removes env rf names target :
  forall s : Page env,
    (forall f p, rf f p = None) ->
    In target names ->
    py "uploads/" ++ target ∈ dom (files (pfs s)) ->
    exists s',
      manager_loop env rf (fun key => bool_decide (key = py "delete_" ++ target))
                   names s = (Ret true, s')
      /\ dirs (pfs s') = dirs (pfs s)
      /\ files (pfs s') = delete (py "uploads/" ++ target) (files (pfs s)).
Proof.
  induction names as [|n rest IH]; intros s Hrf Hin Hfile; [destruct Hin|].
  cbn [manager_loop]. unfold pbind at 1. unfold show at 1.
  case_bool_decide as Hkey.
  - apply app_inv_head in Hkey. subst n.
    unfold pbind at 1. rewrite os_remove_run. cbn [pfs pproc shown].
    rewrite Hrf, (bool_decide_eq_true_2 _ Hfile).
    unfold pbind, run_low, st_success, emit, pret. cbn [pfs pproc shown fs proc trace].
    eexists. split; [reflexivity|]. simpl. auto.
  - destruct Hin as [->|Hin]; [contradiction|].
    destruct (IH (mkPage (pfs s) (pproc s)
                         (shown s ++ [StWrite ([128196; 32] ++ n)])) Hrf Hin Hfile)
      as (s' & Hrun & Hrest).
    exists s'. split; [exact Hrun | exact Hrest].
Qed.

(** X14. Upload, then delete: after an upload that returned [True] for a
    plain file name whose processed file did not exist before, the document
    manager lists the processed file, and clicking its delete button (the
    operating system not objecting) removes it, asks for a rerun and leaves
    the files exactly as they were before the upload. *)
Theorem upload_then_delete_restores_files (env : Env) (file : UploadedFile)
    (rf : FS -> pystr -> option exn) (w w' : World env) (s : Page env) :
  process_uploaded_file env file w = (Ret true, w') ->
  ~ In slash (name file) ->
  files (fs w) !! processed_path (name file) = None ->
  (forall f p, rf f p = None) ->
  pfs s = fs w' ->
  let listed := name file ++ py "_processed.txt" in
  In listed (listdir_names (pfs s))
  /\ exists s',
       show_document_manager env rf
         (fun key => bool_decide (key = py "delete_" ++ listed)) s = (Ret true, s')
       /\ files (pfs s') = files (fs w).
Proof.
  intros Hrun Hsl Hfresh Hrf Hs listed.
  destruct s as [f p sh]. cbn [pfs] in *. subst f.
  destruct (process_uploaded_file_cases env file w)
    as (b & w0 & Hrun0 & [(text & Hing) | (Hb & _)]);
    rewrite Hrun in Hrun0; inversion Hrun0; subst b w0; [|discriminate].
  destruct (ingested_files _ _ _ _ _ _ Hing) as (Hfile & _ & Hdir).
  assert (Hfiles : files (fs w')
                   = <[processed_path (name file) := text]> (files (fs w))).
  { destruct Hing as (_ & _ & _ & _ & _ & _ & _ & _ & _ & _ & Hfs & _).
    rewrite Hfs. reflexivity. }
  assert (Hlisted : In listed (listdir_names (fs w'))).
  { unfold listdir_names.
    change listed with (drop 8 (processed_path (name file))).
    apply in_map. apply processed_file_is_listed; [exact Hsl|].
    rewrite Hfile. eauto. }
  split; [exact Hlisted|].
  assert (Hpath : py "uploads/" ++ listed = processed_path (name file)) by reflexivity.
  unfold show_document_manager. unfold pbind at 1. unfold show at 1.
  cbn [pfs pproc shown]. unfold os_path_exists.
  rewrite (bool_decide_eq_true_2 _ Hdir). simpl orb. cbv iota.
  unfold pbind at 1. cbn [pfs pproc shown].
  rewrite (bool_decide_eq_true_2 _ Hdir).
  destruct (listdir_names (fs w')) as [|n rest] eqn:Hnames; [destruct Hlisted|].
  unfold pbind at 1. unfold show at 1. cbn [pfs pproc shown].
  destruct (manager_loop_removes env rf (n :: rest) listed
              (mkPage (fs w') p
                 ((sh ++ [StSubheader ([128203; 32] ++ py "Document Database")])
                  ++ [StWrite (py "**Uploaded Documents:**")])) Hrf Hlisted)
    as (s' & Hloop & _ & Hdel).
  { cbn [pfs]. rewrite Hpath. apply elem_of_dom. rewrite Hfile. eauto. }
  exists s'. split; [exact Hloop|].
  rewrite Hdel. cbn [pfs]. rewrite Hpath, Hfiles.
  apply delete_insert_id. exact Hfresh.
Qed.

(** ** The chat *)

Lemma show_exchanges_run env {A} (str : A -> pystr) chats (s : Page env) :
  show_exchanges env str chats s
  = (Ret tt, mkPage (pfs s) (pproc s) (shown s ++ exchange_events str chats)).
Proof.
  revert s. induction chats as [|chat rest IH]; intros s.
  - simpl. unfold pret. rewrite app_nil_r. destruct s; reflexivity.
  - cbn [show_exchanges]. unfold pbind, show. rewrite IH. cbn [pfs pproc shown].
    unfold exchange_events. simpl. rewrite <- app_assoc. reflexivity.
Qed.

Lemma display_chat_history_run env {A} (str : A -> pystr) history (s : Page env) :
  display_chat_history env str history s
  = (Ret tt,
     mkPage (pfs s) (pproc s)
       (shown s ++ match history with
                   | Some (chat :: rest) =>
                       StHeader ([128173; 32] ++ py "Chat History")
                       :: exchange_events str (rev (chat :: rest))
                   | _ => []
                   end)).
Proof.
  unfold display_chat_history.
  destruct history as [[|chat rest]|];
    try (unfold pret; rewrite app_nil_r; destruct s; reflexivity).
  unfold pbind, show. rewrite show_exchanges_run. cbn [pfs pproc shown].
  rewrite <- app_assoc. reflexivity.
Qed.

(** The handler never raises, and what it adds to the history was asked. *)
Lemma on_ask_sound env {A} (ask : pystr -> bool -> M env A)
    ask_button question use_advanced history (w : World env) :
  exists h w',
    on_ask env ask ask_button question use_advanced history w = (Ret h, w')
    /\ (Forall asked (default [] history) -> Forall asked (default [] h)).
Proof.
  unfold on_ask.
  destruct (ask_button && negb (str_eqb question [])) eqn:Hcond.
  2:{ exists history, w. split; [reflexivity | auto]. }
  apply andb_prop in Hcond as [_ Hq].
  apply negb_true_iff, bool_decide_eq_false in Hq.
  unfold try_except, bind.
  destruct (ask question use_advanced w) as [[a|e] w1].
  - eexists _, _. split; [reflexivity|]. intros Hh. simpl.
    apply Forall_app. split.
    + destruct history; [exact Hh | constructor].
    + constructor; [exact Hq | constructor].
  - monad_unfold. eexists _, _. split; [reflexivity | auto].
Qed.

Lemma current_question_cleared (c : option pystr) :
  (if negb (str_eqb (default [] (match c with None => Some [] | Some _ => c end)) [])
   then Some []
   else match c with None => Some [] | Some _ => c end) = Some [].
Proof.
  destruct c as [x|]; simpl; [|reflexivity].
  unfold str_eqb. case_bool_decide; subst; reflexivity.
Qed.

Lemma chat_section_run env {A} (ask : pystr -> bool -> M env A) (str : A -> pystr)
    use_advanced inp session (s : Page env) :
  exists session' s' pre,
    chat_section env ask str use_advanced inp session s = (Ret session', s')
    /\ current_question session' = Some []
    /\ (Forall asked (default [] (chat_history session)) ->
        Forall asked (default [] (chat_history session')))
    /\ shown s' = shown s ++ pre
         ++ match chat_history session' with
            | Some (chat :: rest) =>
                StHeader ([128173; 32] ++ py "Chat History")
                :: exchange_events str (rev (chat :: rest))
            | _ => []
            end
    /\ forallb (fun ev => negb (is_chat_display ev)) pre = true.
Proof.
  unfold chat_section. cbv zeta.
  rewrite (current_question_cleared
             (if it_button inp
              then Some (py "Who should I contact for IT issues?")
              else if expense_button inp
                   then Some (py "How do I submit expense reports?")
                   else if vacation_button inp
                        then Some (py "What's our vacation policy?")
                        else current_question session)).
  unfold pbind at 1.
  destruct (clear_button inp).
  - unfold pbind at 1. unfold run_low at 1, st_success, emit, pret.
    cbn [fs proc trace pfs pproc shown].
    unfold pbind at 1. unfold run_low at 1. cbn [pfs pproc shown].
    match goal with
    | |- context [on_ask ?e ?a ?b ?q ?u ?h ?w] =>
        destruct (on_ask_sound e a b q u h w) as (h' & w' & Hrun & Hinv)
    end.
    rewrite Hrun. unfold pbind at 1. rewrite display_chat_history_run.
    cbn [pfs pproc shown]. unfold pret.
    eexists _, _, ([Ran (StSuccess (py "Chat cleared!"))] ++ map Ran (trace w')).
    split; [reflexivity|]. cbn [current_question chat_history shown].
    split; [reflexivity|]. split; [intros _; apply Hinv; constructor|].
    split; [simpl; rewrite <- !app_assoc; reflexivity|].
    simpl. induction (trace w'); simpl; auto.
  - unfold pret at 1.
    unfold pbind at 1. unfold run_low at 1. cbn [pfs pproc shown].
    match goal with
    | |- context [on_ask ?e ?a ?b ?q ?u ?h ?w] =>
        destruct (on_ask_sound e a b q u h w) as (h' & w' & Hrun & Hinv)
    end.
    rewrite Hrun. unfold pbind at 1. rewrite display_chat_history_run.
    cbn [pfs pproc shown]. unfold pret.
    eexists _, _, (map Ran (trace w')).
    split; [reflexivity|]. cbn [current_question chat_history shown].
    split; [reflexivity|]. split; [exact Hinv|].
    split; [rewrite <- !app_assoc; reflexivity|].
    induction (trace w'); simpl; auto.
Qed.

(** X15. Over any sequence of reruns of the chat column, whatever the
    widgets return and whatever [ask_question] does (an exception it raises
    is caught and shown): no run raises, the history never holds an
    exchange with an empty question, and after at least one run the pending
    quick question is the empty string. *)
Theorem chat_reruns_keep_the_history_sound env {A}
    (ask : pystr -> bool -> M env A) (str : A -> pystr) use_advanced
    (inputs : list ChatInput) (session : Session A) (s : Page env) :
  Forall asked (default [] (chat_history session)) ->
  exists session' s',
    chat_runs env ask str use_advanced inputs session s = (Ret session', s')
    /\ Forall asked (default [] (chat_history session'))
    /\ (inputs <> [] -> current_question session' = Some []).
Proof.
  revert session s. induction inputs as [|inp rest IH]; intros session s Hinv.
  - exists session, s. split; [reflexivity|]. split; [exact Hinv|].
    intros H. destruct (H eq_refl).
  - cbn [chat_runs]. unfold pbind.
    destruct (chat_section_run env ask str use_advanced inp session s)
      as (session1 & s1 & pre & Hrun & Hcq & Hkeep & _).
    rewrite Hrun.
    destruct (IH session1 s1 (Hkeep Hinv)) as (session' & s' & Hruns & Hinv' & Hcq').
    exists session', s'. split; [exact Hruns|]. split; [exact Hinv'|].
    intros _. destruct rest as [|inp' rest'].
    + simpl in Hruns. unfold pret in Hruns. inversion Hruns; subst. exact Hcq.
    + apply Hcq'. discriminate.
Qed.

(** X16. What a run of the chat column shows is the history it leaves in
    the session, newest exchange first: the events of the display are the
    header followed by the stored exchanges in reverse order, and nothing
    when the history is absent or empty. *)
Theorem chat_is_shown_newest_first env {A}
    (ask : pystr -> bool -> M env A) (str : A -> pystr) use_advanced
    (inp : ChatInput) (session session' : Session A) (s s' : Page env) :
  chat_section env ask str use_advanced inp session s = (Ret session', s') ->
  exists pre,
    shown s' = shown s ++ pre
      ++ match chat_history session' with
         | Some (chat :: rest) =>
             StHeader ([128173; 32] ++ py "Chat History")
             :: exchange_events str (rev (chat :: rest))
         | _ => []
         end
    /\ forallb (fun ev => negb (is_chat_display ev)) pre = true
    /\ (forall older question answer,
          chat_history session' = Some (older ++ [(question, answer)]) ->
          exists rest,
            shown s' = shown s ++ pre
              ++ StHeader ([128173; 32] ++ py "Chat History")
              :: StChat question (str answer) :: rest).
Proof.
  intros Hrun.
  destruct (chat_section_run env ask str use_advanced inp session s)
    as (session1 & s1 & pre & Hrun1 & _ & _ & Hshown & Hpre).
  rewrite Hrun in Hrun1. inversion Hrun1; subst session1 s1.
  exists pre. split; [exact Hshown|]. split; [exact Hpre|].
  intros older question answer Hh. rewrite Hh in Hshown.
  destruct (older ++ [(question, answer)]) as [|chat rest] eqn:E.
  { destruct older; discriminate. }
  rewrite <- E, rev_app_distr in Hshown. simpl in Hshown.
  eexists. exact Hshown.
Qed.

(** ** The properties of Parts 7 and 8 on concrete inputs *)

Ltac no_such_char := vm_compute; intuition discriminate.



Lemma undecodable_text_file_is_rejected_witness :
  exists w' e,
    process_uploaded_file demo_env latin1_txt empty_world = (Ret false, w')
    /\ files (fs w') = files (fs empty_world)
    /\ proc w' = proc empty_world
    /\ calls (trace w') = calls (trace empty_world)
    /\ last (trace w') = Some (StError (py "Error processing file: ") (Some e))
    /\ (forall w1, os_makedirs demo_env (py "uploads") empty_world = (Ret tt, w1) ->
                   e = UnicodeDecodeError).
Proof.
  apply (undecodable_text_file_is_rejected demo_env latin1_txt empty_world).
  - reflexivity.
  - reflexivity.
Defined.

Lemma failed_write_leaves_an_empty_file_witness :
  exists w',
    process_uploaded_file surrogate_env report_pdf report_world = (Ret false, w')
    /\ files (fs w')
       = <[processed_path (name report_pdf) := []]> (files (fs report_world))
    /\ proc w' = proc report_world
    /\ calls (trace w') = calls (trace report_world)
    /\ last (trace w')
       = Some (StError (py "Error processing file: ") (Some UnicodeEncodeError)).
Proof.
  apply (failed_write_leaves_an_empty_file surrogate_env report_pdf report_world
           (log (made_uploads report_world) [PdfReader (name report_pdf)])
           (extract_text_from_pdf surrogate_env report_pdf) [55349; 56500; 10]).
  - intros c f. reflexivity.
  - apply not_elem_of_dom. vm_compute. reflexivity.
  - intros H. cbn [report_world fs dirs] in H.
    apply elem_of_singleton in H. vm_compute in H. discriminate H.
  - no_such_char.
  - reflexivity.
  - reflexivity.
  - reflexivity.
  - reflexivity.
Defined.



Lemma docx_without_text_is_rejected_witness :
  extract_text_from_docx quiet_env report_docx quiet_world
  = (Ret (Some (docx_loop [[]; py "   "; [9]] [])),
     log quiet_world [DocxDocument (name report_docx)])
  /\ blank (docx_loop [[]; py "   "; [9]] []) = true
  /\ exists w',
       process_uploaded_file quiet_env report_docx quiet_world = (Ret false, w')
       /\ files (fs w') = files (fs quiet_world)
       /\ proc w' = proc quiet_world
       /\ calls (trace w') = calls (trace quiet_world).
Proof.
  apply (docx_without_text_is_rejected quiet_env report_docx quiet_world).
  - reflexivity.
  - reflexivity.
  - reflexivity.
Defined.

Lemma pdf_without_text_is_rejected_witness :
  exists text w',
    extract_text_from_pdf quiet_env scan_pdf quiet_world
    = (Ret (Some text), log quiet_world [PdfReader (name scan_pdf)])
    /\ blank text = true
    /\ process_uploaded_file quiet_env scan_pdf quiet_world = (Ret false, w')
    /\ files (fs w') = files (fs quiet_world)
    /\ proc w' = proc quiet_world
    /\ calls (trace w') = calls (trace quiet_world).
Proof.
  apply (pdf_without_text_is_rejected quiet_env scan_pdf quiet_world
           [Ret []; Ret (py "  ")]).
  - reflexivity.
  - reflexivity.
  - reflexivity.
Defined.



Lemma upload_then_delete_restores_files_witness :
  let listed := name hi_txt ++ py "_processed.txt" in
  In listed (listdir_names (pfs hi_page))
  /\ exists s',
       show_document_manager demo_env lets_remove
         (fun key => bool_decide (key = py "delete_" ++ listed)) hi_page
       = (Ret true, s')
       /\ files (pfs s') = files (fs empty_world).
Proof.
  apply (upload_then_delete_restores_files demo_env hi_txt lets_remove
           empty_world hi_final hi_page).
  - vm_compute. reflexivity.
  - no_such_char.
  - reflexivity.
  - intros f p. reflexivity.
  - reflexivity.
Defined.

Lemma chat_reruns_keep_the_history_sound_witness :
  exists session' s',
    chat_runs demo_env demo_ask (fun a => a) false three_reruns fresh_session
              demo_page = (Ret session', s')
    /\ Forall asked (default [] (chat_history session'))
    /\ (three_reruns <> [] -> current_question session' = Some []).
Proof.
  apply (chat_reruns_keep_the_history_sound demo_env demo_ask (fun a => a) false
           three_reruns fresh_session demo_page).
  constructor.
Defined.

Lemma chat_is_shown_newest_first_witness :
  exists pre,
    shown (snd second_run) = shown demo_page ++ pre
      ++ match chat_history second_session with
         | Some (chat :: rest) =>
             StHeader ([128173; 32] ++ py "Chat History")
             :: exchange_events (fun a => a) (rev (chat :: rest))
         | _ => []
         end
    /\ forallb (fun ev => negb (is_chat_display ev)) pre = true
    /\ (forall older question answer,
          chat_history second_session = Some (older ++ [(question, answer)]) ->
          exists rest,
            shown (snd second_run) = shown demo_page ++ pre
              ++ StHeader ([128173; 32] ++ py "Chat History")
              :: StChat question answer :: rest).
Proof.
  apply (chat_is_shown_newest_first demo_env demo_ask (fun a => a) false
           (ask_typed (py "second?")) one_exchange second_session
           demo_page (snd second_run)).
  vm_compute. reflexivity.
Defined.

(** The three reruns of the example: a quick question is offered, it is
    asked and answered, then the engine breaks; the history holds the one
    exchange, and the page shows it after the error. *)
Example chat_example :
  match chat_runs demo_env demo_ask (fun a => a) false three_reruns fresh_session
                  demo_page with
  | (Ret session', s') =>
      chat_history session'
      = Some [(py "What's our vacation policy?",
               py "You asked: What's our vacation policy?")]
      /\ last (omap low_event (shown s'))
         = Some (StError (py "Error generating answer: ")
                         (Some (LibraryError (py "model missing"))))
  | _ => False
  end.
Proof. vm_compute. split; reflexivity. Qed.

(** Three files in one go: a text file, an unsupported one, a broken Word
    document; one success announced, one call made. *)
Example process_all_files_example :
  let s' := snd (process_all_files demo_env [hi_txt; tool_exe; report_docx]
                                   demo_page) in
  page_calls (shown s')
  = [CallProcessTextFile (py "uploads/a.txt_processed.txt") (py "a")]
  /\ last (shown s')
     = Some (Ran (StSuccess ([9989; 32] ++ py "Successfully processed 1/3 files!"))).
Proof. vm_compute. split; reflexivity. Qed.
